(** * tailscale-actions-demo: the HTTP service of [app/main.go]

    A shallow embedding of the three request handlers ([healthHandler],
    [userHandler], [productsHandler]) and of the identity resolver
    ([tailscaleWhois]), together with the parts of the Go runtime they
    call: byte strings, [unicode/utf8], [time.Time.Format],
    [encoding/json] and [net/http]'s [ResponseWriter].

    Go strings are byte sequences; they are embedded as [string] (a list
    of 8-bit [ascii]).  A Go [error] is embedded as the text its
    [Error()] method returns, and a nilable error as an [option]. *)

From Stdlib Require Import ZArith Ascii String List Bool Lia.
From stdpp Require Import base option list strings gmap sorting.

Local Open Scope Z_scope.
#[local] Set Warnings "-register-all,-clear-no-such-hyp".

(** ** Bytes and strings *)

Module GoString.

(** The double quote, the backslash and the line feed. *)
Definition dquote : ascii := "034"%char.
Definition backslash : ascii := "092"%char.
Definition newline : ascii := "010"%char.

Definition byteval (c : ascii) : Z := Z.of_N (N_of_ascii c).
Definition mkbyte (z : Z) : ascii := ascii_of_N (Z.to_N (z mod 256)).

Definition str1 (c : ascii) : string := String c EmptyString.

(** [q s] is [s] between double quotes, as in a Go raw string literal
    that contains quoted text. *)
Definition q (s : string) : string := String dquote (s +:+ str1 dquote).

Definition nl : string := str1 newline.

Fixpoint of_bytes (l : list Z) : string :=
  match l with
  | [] => EmptyString
  | b :: l' => String (mkbyte b) (of_bytes l')
  end.

Definition to_bytes (s : string) : list Z :=
  map byteval (list_ascii_of_string s).

(** [string(b)] for [b []byte]: the same bytes. *)
Definition string_of_byteslice (b : list Byte.byte) : string :=
  string_of_list_byte b.

End GoString.

Import GoString.

(** ** unicode/utf8 *)

Module utf8.

Definition RuneError : Z := 65533.

(** [utf8.AppendRune] restricted to the code points a [string(x)]
    conversion of an integer can yield; surrogates and values above
    [MaxRune] are replaced by [RuneError]. *)
Definition EncodeRune (r : Z) : string :=
  if r <? 0 then of_bytes [239; 191; 189]
  else if r <=? 127 then of_bytes [r]
  else if r <=? 2047 then
    of_bytes [Z.lor 192 (Z.shiftr r 6); Z.lor 128 (Z.land r 63)]
  else if (1114111 <? r) || ((55296 <=? r) && (r <=? 57343)) then
    of_bytes [239; 191; 189]
  else if r <=? 65535 then
    of_bytes [Z.lor 224 (Z.shiftr r 12);
              Z.lor 128 (Z.land (Z.shiftr r 6) 63);
              Z.lor 128 (Z.land r 63)]
  else
    of_bytes [Z.lor 240 (Z.shiftr r 18);
              Z.lor 128 (Z.land (Z.shiftr r 12) 63);
              Z.lor 128 (Z.land (Z.shiftr r 6) 63);
              Z.lor 128 (Z.land r 63)].

(** The [first] table: for a leading byte, the sequence length and the
    range the second byte must lie in; [None] for a byte that cannot
    start a multi-byte sequence. *)
Definition first (b : Z) : option (nat * (Z * Z)) :=
  if b <? 194 then None
  else if b <=? 223 then Some (2%nat, (128, 191))
  else if b =? 224 then Some (3%nat, (160, 191))
  else if b <=? 236 then Some (3%nat, (128, 191))
  else if b =? 237 then Some (3%nat, (128, 159))
  else if b <=? 239 then Some (3%nat, (128, 191))
  else if b =? 240 then Some (4%nat, (144, 191))
  else if b <=? 243 then Some (4%nat, (128, 191))
  else if b =? 244 then Some (4%nat, (128, 143))
  else None.

Definition cont (b : Z) : bool := (128 <=? b) && (b <=? 191).

(** [utf8.DecodeRuneInString]: the first rune of [s] and its width in
    bytes; [(RuneError, 0)] on the empty string and [(RuneError, 1)] on
    an invalid encoding. *)
Definition DecodeRuneInString (s : string) : Z * nat :=
  match to_bytes s with
  | [] => (RuneError, 0%nat)
  | s0 :: rest =>
    if s0 <? 128 then (s0, 1%nat)
    else
      match first s0 with
      | None => (RuneError, 1%nat)
      | Some (sz, (lo, hi)) =>
        match rest with
        | [] => (RuneError, 1%nat)
        | s1 :: rest1 =>
          if (s1 <? lo) || (hi <? s1) then (RuneError, 1%nat)
          else if (sz <=? 2)%nat then
            (Z.lor (Z.shiftl (Z.land s0 31) 6) (Z.land s1 63), 2%nat)
          else
            match rest1 with
            | [] => (RuneError, 1%nat)
            | s2 :: rest2 =>
              if negb (cont s2) then (RuneError, 1%nat)
              else if (sz <=? 3)%nat then
                (Z.lor (Z.shiftl (Z.land s0 15) 12)
                   (Z.lor (Z.shiftl (Z.land s1 63) 6) (Z.land s2 63)),
                 3%nat)
              else
                match rest2 with
                | [] => (RuneError, 1%nat)
                | s3 :: _ =>
                  if negb (cont s3) then (RuneError, 1%nat)
                  else
                    (Z.lor (Z.shiftl (Z.land s0 7) 18)
                       (Z.lor (Z.shiftl (Z.land s1 63) 12)
                          (Z.lor (Z.shiftl (Z.land s2 63) 6)
                             (Z.land s3 63))),
                     4%nat)
                end
            end
        end
      end
  end.

End utf8.

(** [string(b)] for [b byte]: the UTF-8 encoding of the code point whose
    number is the byte's value (not the one-byte string). *)
Definition string_of_byte (b : ascii) : string :=
  utf8.EncodeRune (byteval b).

(** ** time *)

Module time.

(** A [time.Time]: the instant as seconds since the Unix epoch, plus the
    offset (seconds east of UTC) its Location has at that instant. *)
Record Time := mkTime { unixSec : Z; nsec : Z; offset : Z }.

Fixpoint digits_aux (fuel : nat) (u : Z) (acc : string) : string :=
  match fuel with
  | O => acc
  | S f =>
    let acc' := String (mkbyte (48 + u mod 10)) acc in
    if u / 10 =? 0 then acc' else digits_aux f (u / 10) acc'
  end.

(** Decimal digits of a non-negative integer. *)
Definition digits (u : Z) : string :=
  digits_aux (S (Z.to_nat (Z.log2 u))) u EmptyString.

Fixpoint zeros (n : nat) : string :=
  match n with
  | O => EmptyString
  | S n' => String "0"%char (zeros n')
  end.

(** [appendInt]: sign, then the magnitude padded with zeros to [width]. *)
Definition appendInt (x : Z) (width : nat) : string :=
  let u := Z.abs x in
  let d := digits u in
  (if x <? 0 then "-" else EmptyString)
    +:+ zeros (width - String.length d) +:+ d.

(** Civil date of a day count relative to 1970-01-01 in the proleptic
    Gregorian calendar with astronomical year numbering ([absDate]). *)
Definition civil (days : Z) : Z * Z * Z :=
  let z := days + 719468 in
  let era := z / 146097 in
  let doe := z - era * 146097 in
  let yoe := (doe - doe / 1460 + doe / 36524 - doe / 146096) / 365 in
  let y := yoe + era * 400 in
  let doy := doe - (365 * yoe + yoe / 4 - yoe / 100) in
  let mp := (5 * doy + 2) / 153 in
  let d := doy - (153 * mp + 2) / 5 + 1 in
  let m := if mp <? 10 then mp + 3 else mp - 9 in
  (if m <=? 2 then y + 1 else y, m, d).

(** [t.Format(time.RFC3339)], layout [2006-01-02T15:04:05Z07:00]. *)
Definition FormatRFC3339 (t : Time) : string :=
  let abs := unixSec t + offset t in
  let '(year, month, day) := civil (abs / 86400) in
  let secs := abs mod 86400 in
  let zone := Z.quot (offset t) 60 in
  appendInt year 4 +:+ "-" +:+ appendInt month 2 +:+ "-"
    +:+ appendInt day 2 +:+ "T"
    +:+ appendInt (secs / 3600) 2 +:+ ":"
    +:+ appendInt (secs mod 3600 / 60) 2 +:+ ":"
    +:+ appendInt (secs mod 60) 2
    +:+ (if offset t =? 0 then "Z"
         else (if zone <? 0 then "-" else "+")
                +:+ appendInt (Z.abs zone / 60) 2 +:+ ":"
                +:+ appendInt (Z.abs zone mod 60) 2).

End time.

(** ** encoding/json *)

Module json.

(** What the encoder emits for a Go value.  [JRaw] stands for a value
    whose text is produced outside this model ([strconv] for floats, a
    [MarshalJSON] method): the text, or [None] when that call reports
    an error. *)
Inductive JSON : Type :=
| JNull
| JBool (b : bool)
| JInt (z : Z)
| JString (s : string)
| JRaw (text : option string)
| JArray (elems : list JSON)
| JObject (fields : list (string * JSON)).

Definition hexdigit (d : Z) : ascii :=
  if d <? 10 then mkbyte (48 + d) else mkbyte (87 + d).

(** Bytes below [utf8.RuneSelf] the encoder copies as they are
    ([htmlSafeSet]; [Encoder] escapes HTML by default). *)
Definition htmlSafe (b : Z) : bool :=
  (32 <=? b) && negb (b =? 34) && negb (b =? 92)
    && negb (b =? 60) && negb (b =? 62) && negb (b =? 38).

Definition escapeByte (b : Z) : string :=
  if (b =? 92) || (b =? 34) then String backslash (str1 (mkbyte b))
  else if b =? 8 then String backslash "b"
  else if b =? 12 then String backslash "f"
  else if b =? 10 then String backslash "n"
  else if b =? 13 then String backslash "r"
  else if b =? 9 then String backslash "t"
  else String backslash
         ("u00" +:+ String (hexdigit (Z.shiftr b 4)) (str1 (hexdigit (Z.land b 15)))).

(** The body of [appendString]; [skip] counts the bytes of a rune
    already copied. *)
Fixpoint escape (skip : nat) (s : string) : string :=
  match s with
  | EmptyString => EmptyString
  | String c s' =>
    match skip with
    | S k => escape k s'
    | O =>
      let b := byteval c in
      if b <? 128 then
        (if htmlSafe b then str1 c else escapeByte b) +:+ escape 0 s'
      else
        let '(r, size) := utf8.DecodeRuneInString s in
        if (r =? utf8.RuneError) && (size =? 1)%nat then
          String backslash "ufffd" +:+ escape 0 s'
        else if (r =? 8232) || (r =? 8233) then
          String backslash ("u202" +:+ str1 (hexdigit (Z.land r 15)))
            +:+ escape (size - 1) s'
        else
          String.substring 0 size s +:+ escape (size - 1) s'
    end
  end.

Definition encodeString (s : string) : string := q (escape 0 s).

Definition formatInt (z : Z) : string :=
  (if z <? 0 then "-" else EmptyString) +:+ time.digits (Z.abs z).

Fixpoint join (sep : string) (l : list string) : string :=
  match l with
  | [] => EmptyString
  | [x] => x
  | x :: l' => x +:+ sep +:+ join sep l'
  end.

Fixpoint sequence {A} (l : list (option A)) : option (list A) :=
  match l with
  | [] => Some []
  | Some x :: l' => cons x <$> sequence l'
  | None :: _ => None
  end.

(** [json.Marshal] on the tree: the compact text, or [None] when a
    leaf reports an error. *)
Fixpoint Marshal (j : JSON) : option string :=
  match j with
  | JNull => Some "null"
  | JBool b => Some (if b then "true" else "false")
  | JInt z => Some (formatInt z)
  | JString s => Some (encodeString s)
  | JRaw t => t
  | JArray l =>
    (fun parts => "[" +:+ join "," parts +:+ "]")
      <$> sequence (map Marshal l)
  | JObject fs =>
    (fun parts => "{" +:+ join "," parts +:+ "}")
      <$> sequence
            (map (fun kv => (fun t => encodeString (fst kv) +:+ ":" +:+ t)
                              <$> Marshal (snd kv)) fs)
  end.

(** *** A recogniser for JSON texts ([json.Valid]) *)

Definition is_ws (c : ascii) : bool :=
  let b := byteval c in (b =? 32) || (b =? 9) || (b =? 10) || (b =? 13).

Fixpoint skipws (s : list ascii) : list ascii :=
  match s with
  | c :: s' => if is_ws c then skipws s' else s
  | [] => []
  end.

Definition is_digit (c : ascii) : bool :=
  let b := byteval c in (48 <=? b) && (b <=? 57).

Definition is_hex (c : ascii) : bool :=
  let b := byteval c in
  is_digit c || ((97 <=? b) && (b <=? 102)) || ((65 <=? b) && (b <=? 70)).

Definition is_simple_escape (c : ascii) : bool :=
  let b := byteval c in
  (b =? 34) || (b =? 92) || (b =? 47) || (b =? 98) || (b =? 102)
    || (b =? 110) || (b =? 114) || (b =? 116).

(** After the opening quote: the text that follows the closing one. *)
Fixpoint scan_string (s : list ascii) : option (list ascii) :=
  match s with
  | [] => None
  | c :: s' =>
    if byteval c =? 34 then Some s'
    else if byteval c =? 92 then
      match s' with
      | e :: s'' =>
        if is_simple_escape e then scan_string s''
        else if byteval e =? 117 then
          match s'' with
          | h1 :: h2 :: h3 :: h4 :: s3 =>
            if is_hex h1 && is_hex h2 && is_hex h3 && is_hex h4
            then scan_string s3 else None
          | _ => None
          end
        else None
      | [] => None
      end
    else if byteval c <? 32 then None
    else scan_string s'
  end.

Fixpoint skip_digits (s : list ascii) : list ascii :=
  match s with
  | c :: s' => if is_digit c then skip_digits s' else s
  | [] => []
  end.

Definition scan_digits1 (s : list ascii) : option (list ascii) :=
  match s with
  | c :: s' => if is_digit c then Some (skip_digits s') else None
  | [] => None
  end.

Definition scan_exp (s : list ascii) : option (list ascii) :=
  match s with
  | c :: s' =>
    if (byteval c =? 101) || (byteval c =? 69) then
      match s' with
      | sgn :: s'' =>
        if (byteval sgn =? 43) || (byteval sgn =? 45)
        then scan_digits1 s'' else scan_digits1 s'
      | [] => None
      end
    else Some s
  | [] => Some s
  end.

Definition scan_frac (s : list ascii) : option (list ascii) :=
  match s with
  | c :: s' =>
    if byteval c =? 46 then scan_digits1 s' ≫= scan_exp else scan_exp s
  | [] => Some s
  end.

Definition scan_int (s : list ascii) : option (list ascii) :=
  match s with
  | c :: s' =>
    if byteval c =? 48 then scan_frac s'
    else if is_digit c then scan_frac (skip_digits s')
    else None
  | [] => None
  end.

Definition scan_number (s : list ascii) : option (list ascii) :=
  match s with
  | c :: s' => if byteval c =? 45 then scan_int s' else scan_int s
  | [] => None
  end.

Definition scan_literal (lit : string) (s : list ascii) : option (list ascii) :=
  let l := list_ascii_of_string lit in
  if decide (take (length l) s = l) then Some (drop (length l) s) else None.

Fixpoint scan_value (fuel : nat) (s : list ascii) : option (list ascii) :=
  match fuel with
  | O => None
  | S f =>
    match skipws s with
    | [] => None
    | c :: r =>
      let b := byteval c in
      if b =? 123 then
        match skipws r with
        | c' :: r' => if byteval c' =? 125 then Some r' else scan_members f (c' :: r')
        | [] => None
        end
      else if b =? 91 then
        match skipws r with
        | c' :: r' => if byteval c' =? 93 then Some r' else scan_elems f (c' :: r')
        | [] => None
        end
      else if b =? 34 then scan_string r
      else if b =? 116 then scan_literal "true" (c :: r)
      else if b =? 102 then scan_literal "false" (c :: r)
      else if b =? 110 then scan_literal "null" (c :: r)
      else scan_number (c :: r)
    end
  end
with scan_elems (fuel : nat) (s : list ascii) : option (list ascii) :=
  match fuel with
  | O => None
  | S f =>
    match scan_value f s with
    | None => None
    | Some r =>
      match skipws r with
      | c :: r' =>
        if byteval c =? 44 then scan_elems f r'
        else if byteval c =? 93 then Some r'
        else None
      | [] => None
      end
    end
  end
with scan_members (fuel : nat) (s : list ascii) : option (list ascii) :=
  match fuel with
  | O => None
  | S f =>
    match skipws s with
    | c :: r =>
      if byteval c =? 34 then
        match scan_string r with
        | None => None
        | Some r1 =>
          match skipws r1 with
          | c1 :: r2 =>
            if byteval c1 =? 58 then
              match scan_value f r2 with
              | None => None
              | Some r3 =>
                match skipws r3 with
                | c3 :: r4 =>
                  if byteval c3 =? 44 then scan_members f r4
                  else if byteval c3 =? 125 then Some r4
                  else None
                | [] => None
                end
              end
            else None
          | [] => None
          end
        end
      else None
    | [] => None
    end
  end.

(** [accepts fuel s]: within [fuel] nested calls, [s] scans as exactly
    one JSON value surrounded by optional white space. *)
Definition accepts (fuel : nat) (s : string) : bool :=
  match scan_value fuel (list_ascii_of_string s) with
  | Some r => bool_decide (skipws r = [])
  | None => false
  end.

(** A text is well-formed JSON when some amount of fuel accepts it. *)
Definition Valid (s : string) : Prop := exists fuel, accepts fuel s = true.

(** The fuel a text of this length can use at most. *)
Definition valid (s : string) : bool :=
  accepts (2 * String.length s + 2) s.

End json.

(** ** net/http *)

Module http.

(** [http.Header]: a map from canonical header names to their values. *)
Abbreviation Header := (gmap string (list string)).

(** [h.Get(key)] for a key already in canonical form: the first value,
    or the empty string. *)
Definition Get (h : Header) (key : string) : string :=
  match h !! key with
  | Some (v :: _) => v
  | _ => EmptyString
  end.

Definition HeaderSet (key value : string) (h : Header) : Header :=
  <[key := [value]]> h.

Definition HeaderDel (key : string) (h : Header) : Header :=
  delete key h.

Record Request := mkRequest {
  Header_ : Header;
  RemoteAddr : string
}.

(** The server's [ResponseWriter]: the header map the handler edits,
    the status line once written with the headers sent along with it,
    and the body written so far. *)
Record ResponseWriter := mkRW {
  header : Header;
  wroteHeader : option Z;
  sentHeader : Header;
  written : string
}.

Definition newResponseWriter : ResponseWriter :=
  mkRW ∅ None ∅ EmptyString.

(** [w.WriteHeader(code)]: only the first call counts. *)
Definition WriteHeader (code : Z) (w : ResponseWriter) : ResponseWriter :=
  match wroteHeader w with
  | Some _ => w
  | None => mkRW (header w) (Some code) (header w) (written w)
  end.

(** [w.Write(data)]: an implicit [WriteHeader(StatusOK)] first. *)
Definition Write (data : string) (w : ResponseWriter) : ResponseWriter :=
  let w' := WriteHeader 200 w in
  mkRW (header w') (wroteHeader w') (sentHeader w') (written w' +:+ data).

Definition StatusOK : Z := 200.
Definition StatusInternalServerError : Z := 500.

(** [http.Error(w, error, code)]. *)
Definition Error (error : string) (code : Z) (w : ResponseWriter) : ResponseWriter :=
  let h := HeaderSet "X-Content-Type-Options" "nosniff"
             (HeaderSet "Content-Type" "text/plain; charset=utf-8"
                (HeaderDel "Content-Length" (header w))) in
  Write (error +:+ nl)
    (WriteHeader code (mkRW h (wroteHeader w) (sentHeader w) (written w))).

(** What the client receives once the handler has returned; a handler
    that wrote nothing still answers [200]. *)
Record Response := mkResponse {
  StatusCode : Z;
  RespHeader : Header;
  Body : string
}.

Definition finish (w : ResponseWriter) : Response :=
  let w' := WriteHeader 200 w in
  mkResponse (default 200 (wroteHeader w')) (sentHeader w') (written w').

End http.

(** ** The collaborators: Tailscale's local API and database/sql *)

Module tailcfg.
Record Node := mkNode { Tags : list string }.

(** [len(n.Tags) > 0]. *)
Definition IsTagged (n : Node) : bool :=
  match Tags n with [] => false | _ :: _ => true end.

Record UserProfile := mkUserProfile {
  LoginName : string;
  DisplayName : string
}.
End tailcfg.

Module apitype.
(** The code dereferences [Node] unchecked and tests [UserProfile]
    against nil. *)
Record WhoIsResponse := mkWhoIsResponse {
  Node : tailcfg.Node;
  UserProfile : option tailcfg.UserProfile
}.
End apitype.

Module ipnstate.
Record Status := mkStatus { BackendState : string }.
End ipnstate.

Module tailscale.
(** One request's view of the [LocalClient]: what [Status] returns (a
    nilable pointer and a nilable error) and what [WhoIs] returns for a
    remote address (an error or a response). *)
Record LocalClient := mkLocalClient {
  Status : option ipnstate.Status * option string;
  WhoIs : string -> string + apitype.WhoIsResponse
}.
End tailscale.

Module driver.
(** [driver.Value]: the dynamic types a [Scan] into [*interface{}]
    stores.  A [float64] is carried as its IEEE 754 bit pattern. *)
Inductive Value : Type :=
| VNil
| VInt64 (z : Z)
| VFloat64 (bits : Z)
| VBool (b : bool)
| VBytes (b : list Byte.byte)
| VString (s : string)
| VTime (t : time.Time).
End driver.

Module sql.
(** An open cursor: what [Columns] returns, the outcome of [Scan] for
    each row [Next] delivers, and what [Err] returns once [Next] has
    returned false. *)
Record Rows := mkRows {
  Columns : string + list string;
  items : list (string + list driver.Value);
  Err : option string
}.

Record DB := mkDB {
  PingContext : option string;
  QueryContext : string -> string + Rows
}.
End sql.

(** ** The handler monad

    A handler edits its [ResponseWriter] and calls out to the database,
    to the local Tailscale client and to the logger.  The calls are
    recorded in order, so that a statement can say which of them a
    request caused. *)

Inductive Event : Type :=
| EvPing
| EvStatus
| EvWhoIs (addr : string)
| EvQuery (query : string)
| EvLog (line : string).

Record State := mkState {
  w : http.ResponseWriter;
  trace : list Event
}.

Definition Handler (A : Type) : Type := State -> A * State.

#[global] Instance Handler_ret : MRet Handler := fun A a st => (a, st).
#[global] Instance Handler_bind : MBind Handler :=
  fun A B f m st => let '(a, st') := m st in f a st'.

Definition emit (ev : Event) : Handler unit :=
  fun st => (tt, mkState (w st) (trace st ++ [ev])).

Definition onWriter (f : http.ResponseWriter -> http.ResponseWriter) : Handler unit :=
  fun st => (tt, mkState (f (w st)) (trace st)).

(** [w.Header().Set(key, value)]. *)
Definition setHeader (key value : string) : Handler unit :=
  onWriter (fun rw => http.mkRW (http.HeaderSet key value (http.header rw))
                        (http.wroteHeader rw) (http.sentHeader rw) (http.written rw)).

(** [log.Printf]. *)
Definition logPrintf (line : string) : Handler unit := emit (EvLog line).

(** [json.NewEncoder(w).Encode(v)]: the text and a line feed in one
    write; nothing is written when marshalling fails (the handlers drop
    the error [Encode] returns). *)
Definition jsonEncode (v : json.JSON) : Handler unit :=
  match json.Marshal v with
  | Some text => onWriter (http.Write (text +:+ nl))
  | None => mret tt
  end.

Definition initState : State := mkState http.newResponseWriter [].

(** Running a handler on a fresh writer: the response and the calls. *)
Definition serve (h : Handler unit) : http.Response * list Event :=
  let st := snd (h initState) in (http.finish (w st), trace st).

(** ** app/main.go *)

Record Server := mkServer {
  db : sql.DB;
  client : tailscale.LocalClient;
  tsnetMode : bool
}.

Module UserInfo.
Record t := mk {
  Connected : bool;
  LoginName : string;
  DisplayName : string;
  FirstInitial : string;
  Error : string
}.

(** A string field tagged [omitempty]. *)
Definition omitempty (name value : string) : list (string * json.JSON) :=
  match value with
  | EmptyString => []
  | _ => [(name, json.JString value)]
  end.

Definition toJSON (u : t) : json.JSON :=
  json.JObject
    (("connected", json.JBool (Connected u))
       :: omitempty "login_name" (LoginName u)
       ++ omitempty "display_name" (DisplayName u)
       ++ omitempty "first_initial" (FirstInitial u)
       ++ omitempty "error" (Error u)).
End UserInfo.

Module WhoIsData.
Record t := mk {
  LoginName : string;
  DisplayName : string
}.
End WhoIsData.

Module HealthResponse.
Record t := mk {
  Status : string;
  Database : string;
  Tailscale : string
}.

Definition toJSON (h : t) : json.JSON :=
  json.JObject
    [("status", json.JString (Status h));
     ("database", json.JString (Database h));
     ("tailscale", json.JString (Tailscale h))].
End HealthResponse.

Definition PingContext (s : Server) : Handler (option string) :=
  emit EvPing;; mret (sql.PingContext (db s)).

Definition ClientStatus (s : Server)
  : Handler (option ipnstate.Status * option string) :=
  emit EvStatus;; mret (tailscale.Status (client s)).

Definition ClientWhoIs (s : Server) (addr : string)
  : Handler (string + apitype.WhoIsResponse) :=
  emit (EvWhoIs addr);; mret (tailscale.WhoIs (client s) addr).

Definition QueryContext (s : Server) (query : string)
  : Handler (string + sql.Rows) :=
  emit (EvQuery query);; mret (sql.QueryContext (db s) query).

Definition healthHandler (s : Server) (r : http.Request) : Handler unit :=
  setHeader "Content-Type" "application/json";;
  let health := HealthResponse.mk "ok" "disconnected" "unknown" in
  pingErr ← PingContext s;
  let health :=
    match pingErr with
    | None => HealthResponse.mk (HealthResponse.Status health) "connected"
                (HealthResponse.Tailscale health)
    | Some _ => health
    end in
  '(status, err) ← ClientStatus s;
  let health :=
    match err, status with
    | None, Some st =>
      if String.eqb (ipnstate.BackendState st) "Running"
      then HealthResponse.mk (HealthResponse.Status health)
             (HealthResponse.Database health) "connected"
      else HealthResponse.mk (HealthResponse.Status health)
             (HealthResponse.Database health) (ipnstate.BackendState st)
    | _, _ => health
    end in
  onWriter (http.WriteHeader http.StatusOK);;
  jsonEncode (HealthResponse.toJSON health).

(** The nilable [WhoIsData] pointer and the nilable error are kept as a
    pair: [userHandler] tests the two components separately. *)
Definition tailscaleWhois (s : Server) (r : http.Request)
  : Handler (option WhoIsData.t * option string) :=
  if negb (String.eqb (http.Get (http.Header_ r) "Tailscale-User-Login") EmptyString)
  then
    mret (Some (WhoIsData.mk (http.Get (http.Header_ r) "Tailscale-User-Login")
                  (http.Get (http.Header_ r) "Tailscale-User-Name")),
          None)
  else
    res ← ClientWhoIs s (http.RemoteAddr r);
    match res with
    | inl err =>
      if tsnetMode s
      then mret (None, Some ("failed to identify user via tsnet: " +:+ err))
      else mret (None,
                 Some "not accessed via Tailscale - use 'tailscale serve' or set TS_AUTHKEY to run in tsnet mode")
    | inr whois =>
      if tailcfg.IsTagged (apitype.Node whois)
      then mret (None, Some "tagged nodes do not have a user identity")
      else
        match apitype.UserProfile whois with
        | None => mret (None, Some "failed to identify remote user")
        | Some profile =>
          if String.eqb (tailcfg.LoginName profile) EmptyString
          then mret (None, Some "failed to identify remote user")
          else mret (Some (WhoIsData.mk (tailcfg.LoginName profile)
                             (tailcfg.DisplayName profile)),
                     None)
        end
    end.

(** The block under [// Get first initial]: [string(s[0])] of the display
    name when that is not empty, else of the login name. *)
Definition firstInitial (displayName loginName : string) : string :=
  match displayName with
  | String b _ => string_of_byte b
  | EmptyString =>
    match loginName with
    | String b _ => string_of_byte b
    | EmptyString => EmptyString
    end
  end.

Definition userHandler (s : Server) (r : http.Request) : Handler unit :=
  setHeader "Content-Type" "application/json";;
  let userInfo := UserInfo.mk false EmptyString EmptyString EmptyString EmptyString in
  '(whois, err) ← tailscaleWhois s r;
  userInfo ←
    match err with
    | Some e =>
      logPrintf ("Tailscale lookup warning: " +:+ e);;
      mret (UserInfo.mk (UserInfo.Connected userInfo) (UserInfo.LoginName userInfo)
              (UserInfo.DisplayName userInfo) (UserInfo.FirstInitial userInfo)
              "Tailscale not available")
    | None => mret userInfo
    end;
  let userInfo :=
    match whois with
    | Some u =>
      UserInfo.mk true (WhoIsData.LoginName u) (WhoIsData.DisplayName u)
        (firstInitial (WhoIsData.DisplayName u) (WhoIsData.LoginName u))
        (UserInfo.Error userInfo)
    | None => userInfo
    end in
  jsonEncode (UserInfo.toJSON userInfo).

(** *** The products handler and its row marshalling *)

(** The library encoders this development leaves abstract: the text
    [strconv] gives a [float64] ([None] for NaN and the infinities, which
    [encoding/json] rejects), base64 of a byte slice, and
    [time.Time.MarshalJSON]. *)
Record Encoders := mkEncoders {
  formatFloat64 : Z -> option string;
  encodeBase64 : list Byte.byte -> string;
  timeMarshalJSON : time.Time -> option string
}.

(** The conversion at the end of the column loop: a [[]byte] becomes a
    string, a [time.Time] its RFC 3339 text, anything else is stored as
    it is. *)
Definition coerce (val : driver.Value) : driver.Value :=
  match val with
  | driver.VBytes b => driver.VString (string_of_byteslice b)
  | driver.VTime t => driver.VString (time.FormatRFC3339 t)
  | _ => val
  end.

(** [for i, col := range columns { product[col] = ... values[i] ... }],
    from index [i] on.  [values] was made with [len(columns)] nil entries
    that [Scan] fills, hence the nil default. *)
Fixpoint fillProduct (i : nat) (columns : list string) (values : list driver.Value)
    (product : gmap string driver.Value) : gmap string driver.Value :=
  match columns with
  | [] => product
  | col :: columns' =>
    fillProduct (S i) columns' values
      (<[col := coerce (nth i values driver.VNil)]> product)
  end.

Definition marshalRow (columns : list string) (values : list driver.Value)
  : gmap string driver.Value :=
  fillProduct 0 columns values ∅.

(** A slice of maps that may be nil: [None] is the nil slice. *)
Abbreviation Products := (option (list (gmap string driver.Value))).

(** [append(products, product)]. *)
Definition append (products : Products) (product : gmap string driver.Value) : Products :=
  match products with
  | None => Some [product]
  | Some l => Some (l ++ [product])
  end.

(** The [for rows.Next()] loop: the slice built, or the message of the
    first [Scan] that failed. *)
Fixpoint scanRows (columns : list string) (items : list (string + list driver.Value))
    (products : Products) : string + Products :=
  match items with
  | [] => inr products
  | inl err :: _ => inl err
  | inr values :: items' =>
    scanRows columns items' (append products (marshalRow columns values))
  end.

Definition query : string :=
  nl +:+ of_bytes [9; 9] +:+ "SELECT *"
     +:+ nl +:+ of_bytes [9; 9] +:+ "FROM products"
     +:+ nl +:+ of_bytes [9; 9] +:+ "ORDER BY created_at DESC"
     +:+ nl +:+ of_bytes [9; 9] +:+ "LIMIT 100"
     +:+ nl +:+ of_bytes [9].

(** The [fmt.Sprintf] calls of the error paths: an object with the one
    key [error] whose text is [what], a colon, a space and [err.Error()]
    pasted in as it is. *)
Definition errorBody (what err : string) : string :=
  "{" +:+ q "error" +:+ ": " +:+ q (what +:+ ": " +:+ err) +:+ "}".

Section Products.

Variable enc : Encoders.

Definition jsonOfValue (v : driver.Value) : json.JSON :=
  match v with
  | driver.VNil => json.JNull
  | driver.VInt64 z => json.JInt z
  | driver.VFloat64 bits => json.JRaw (formatFloat64 enc bits)
  | driver.VBool b => json.JBool b
  | driver.VBytes b => json.JString (encodeBase64 enc b)
  | driver.VString s => json.JString s
  | driver.VTime t => json.JRaw (timeMarshalJSON enc t)
  end.

(** [encoding/json] writes a map with its keys sorted as byte strings. *)
Definition sortedEntries (m : gmap string driver.Value) : list (string * driver.Value) :=
  merge_sort (fun a b => String.le (fst a) (fst b)) (map_to_list m).

Definition jsonOfProduct (m : gmap string driver.Value) : json.JSON :=
  json.JObject (map (fun kv => (fst kv, jsonOfValue (snd kv))) (sortedEntries m)).

(** A nil slice is written as [null]. *)
Definition jsonOfProducts (products : Products) : json.JSON :=
  match products with
  | None => json.JNull
  | Some l => json.JArray (map jsonOfProduct l)
  end.

Definition productsHandler (s : Server) (r : http.Request) : Handler unit :=
  setHeader "Content-Type" "application/json";;
  res ← QueryContext s query;
  match res with
  | inl err =>
    onWriter (http.Error (errorBody "Failed to query database" err)
                http.StatusInternalServerError)
  | inr rows =>
    match sql.Columns rows with
    | inl err =>
      onWriter (http.Error (errorBody "Failed to get columns" err)
                  http.StatusInternalServerError)
    | inr columns =>
      match scanRows columns (sql.items rows) None with
      | inl err =>
        onWriter (http.Error (errorBody "Failed to scan row" err)
                    http.StatusInternalServerError)
      | inr products =>
        match sql.Err rows with
        | Some err =>
          onWriter (http.Error (errorBody "Error iterating rows" err)
                      http.StatusInternalServerError)
        | None => jsonEncode (jsonOfProducts products)
        end
      end
    end
  end.

End Products.

(** * Vocabulary of the statements and sample inputs *)

(** ** Reading requests and answers *)

(** The member [name] of a JSON object, if it has one. *)
Definition member (name : string) (j : json.JSON) : option json.JSON :=
  match j with
  | json.JObject fields => snd <$> List.find (fun kv => String.eqb (fst kv) name) fields
  | _ => None
  end.

Definition objectKeys (j : json.JSON) : list string :=
  match j with
  | json.JObject fields => map fst fields
  | _ => []
  end.

(** The headers every JSON answer of the handlers is sent with. *)
Definition jsonHeader : http.Header :=
  http.HeaderSet "Content-Type" "application/json" ∅.

(** A [200] answer carrying [text] and the line feed of [Encode]. *)
Definition okJSON (text : string) : http.Response :=
  http.mkResponse 200 jsonHeader (text +:+ nl).

(** The request carries a trusted identity: [Header.Get] finds a non-empty
    login header. *)
Definition hasIdentityHeader (r : http.Request) : Prop :=
  http.Get (http.Header_ r) "Tailscale-User-Login" <> EmptyString.

(** The ways the network lookup of [tailscaleWhois] ends without an
    identity, in the order the code tests them. *)
Inductive LookupFails (s : Server) (r : http.Request) : Prop :=
| LookupError err :
    tailscale.WhoIs (client s) (http.RemoteAddr r) = inl err ->
    LookupFails s r
| LookupTagged whois :
    tailscale.WhoIs (client s) (http.RemoteAddr r) = inr whois ->
    tailcfg.IsTagged (apitype.Node whois) = true ->
    LookupFails s r
| LookupNoProfile whois :
    tailscale.WhoIs (client s) (http.RemoteAddr r) = inr whois ->
    apitype.UserProfile whois = None ->
    LookupFails s r
| LookupNoLogin whois profile :
    tailscale.WhoIs (client s) (http.RemoteAddr r) = inr whois ->
    apitype.UserProfile whois = Some profile ->
    tailcfg.LoginName profile = EmptyString ->
    LookupFails s r.

#[global] Instance Response_eq_dec : EqDecision http.Response.
Proof. solve_decision. Defined.

(** Two answers a client can tell apart. *)
Definition distinguishable (a b : http.Response) : bool :=
  negb (bool_decide (a = b)).

(** The first character of a UTF-8 string: the bytes of its first rune. *)
Definition firstCharacter (s : string) : string :=
  String.substring 0 (snd (utf8.DecodeRuneInString s)) s.

Definition loginHeader (r : http.Request) : string :=
  http.Get (http.Header_ r) "Tailscale-User-Login".

Definition nameHeader (r : http.Request) : string :=
  http.Get (http.Header_ r) "Tailscale-User-Name".

(** ** Sample inputs *)

(** Sample inputs: a host with neither a database nor a Tailscale daemon,
    a bare request, and one that went through [tailscale serve]. *)
Definition dbDown : sql.DB :=
  sql.mkDB (Some "dial tcp 127.0.0.1:5432: connect: connection refused")
    (fun _ => inl "dial tcp 127.0.0.1:5432: connect: connection refused").

Definition clientDown : tailscale.LocalClient :=
  tailscale.mkLocalClient
    (None, Some "failed to connect to local tailscaled")
    (fun _ => inl "failed to connect to local tailscaled").

Definition srvDown : Server := mkServer dbDown clientDown false.

Definition reqBare : http.Request := http.mkRequest ∅ "192.0.2.7:51234".

Definition reqAlice : http.Request :=
  http.mkRequest
    (<["Tailscale-User-Login" := ["alice@example.com"]]>
       (<["Tailscale-User-Name" := ["Alice Liddell"]]> ∅))
    "127.0.0.1:40022".

Definition reqLoginOnly : http.Request :=
  http.mkRequest (<["Tailscale-User-Login" := ["bob@example.com"]]> ∅)
    "127.0.0.1:40023".

(** ** The texts the handlers produce *)

(** The two errors [tailscaleWhois] makes of a failed [WhoIs]. *)
Definition errTsnet (err : string) : string :=
  "failed to identify user via tsnet: " +:+ err.

Definition errStandard : string :=
  "not accessed via Tailscale - use 'tailscale serve' or set TS_AUTHKEY to run in tsnet mode".

Definition notAvailableText : string :=
  "{" +:+ q "connected" +:+ ":false," +:+ q "error" +:+ ":"
      +:+ q "Tailscale not available" +:+ "}".

(** ** More sample inputs *)

(** A user whose display name starts with a two-byte character:
    [of_bytes [195; 137]] is the UTF-8 encoding of U+00C9, capital E with
    acute accent. *)
Definition nameEmile : string := of_bytes [195; 137; 109; 105; 108; 101].

Definition clientEmile : tailscale.LocalClient :=
  tailscale.mkLocalClient
    (Some (ipnstate.mkStatus "Running"), None)
    (fun _ => inr (apitype.mkWhoIsResponse (tailcfg.mkNode [])
                     (Some (tailcfg.mkUserProfile "emile@example.com" nameEmile)))).

Definition srvEmile : Server := mkServer dbDown clientEmile true.

(** ** What the health handler reports *)

Definition databaseField (s : Server) : string :=
  match sql.PingContext (db s) with
  | None => "connected"
  | Some _ => "disconnected"
  end.

Definition tailscaleField (s : Server) : string :=
  match tailscale.Status (client s) with
  | (Some st, None) =>
    if String.eqb (ipnstate.BackendState st) "Running" then "connected"
    else ipnstate.BackendState st
  | _ => "unknown"
  end.

(** The body the specification quotes, with a member named [network]. *)
Definition claimedHealthBody : string :=
  "{" +:+ q "status" +:+ ":" +:+ q "ok" +:+ ","
      +:+ q "database" +:+ ":" +:+ q "disconnected" +:+ ","
      +:+ q "network" +:+ ":" +:+ q "unknown" +:+ "}".

Definition degradedHealthBody : string :=
  "{" +:+ q "status" +:+ ":" +:+ q "ok" +:+ ","
      +:+ q "database" +:+ ":" +:+ q "disconnected" +:+ ","
      +:+ q "tailscale" +:+ ":" +:+ q "unknown" +:+ "}".

(** ** Rows and answers of the products handler *)

(** The keys of a row in the order [encoding/json] writes them. *)
Definition productKeys (m : gmap string driver.Value) : list string :=
  (sortedEntries m).*1.

(** The slice the loop has built once every row has been scanned. *)
Definition allRows (columns : list string) (rows : list (list driver.Value)) : Products :=
  match rows with
  | [] => None
  | _ :: _ => Some (marshalRow columns <$> rows)
  end.

(** The headers [http.Error] leaves on an answer of these handlers. *)
Definition errorHeader : http.Header :=
  http.HeaderSet "X-Content-Type-Options" "nosniff"
    (http.HeaderSet "Content-Type" "text/plain; charset=utf-8"
       (http.HeaderDel "Content-Length" jsonHeader)).

Definition errorResponse (what err : string) : http.Response :=
  http.mkResponse 500 errorHeader (errorBody what err +:+ nl).

(** The answer of a run in which nothing failed up to [Encode]. *)
Definition encodedResponse (j : json.JSON) : http.Response :=
  match json.Marshal j with
  | Some text => http.mkResponse 200 jsonHeader (text +:+ nl)
  | None => http.mkResponse 200 jsonHeader EmptyString
  end.

(** ** The products table of the migrations *)

Definition productColumns : list string :=
  ["id"; "name"; "description"; "price"; "stock_quantity"; "category";
   "created_at"; "updated_at"].

(** A row as the driver delivers it: [DECIMAL] as bytes, [TIMESTAMP] as
    a time (2024-01-15 10:30:00 UTC). *)
Definition sampleRow : list driver.Value :=
  [driver.VInt64 1; driver.VString "Tailscale Personal";
   driver.VString "For individuals"; driver.VBytes (list_byte_of_string "0.00");
   driver.VInt64 100; driver.VNil;
   driver.VTime (time.mkTime 1705314600 0 0);
   driver.VTime (time.mkTime 1705314600 0 0)].

(** Encoders for the sample runs, in which no float, byte slice or time
    reaches [Encode]. *)
Definition sampleEncoders : Encoders :=
  mkEncoders (fun _ => None) (fun _ => EmptyString) (fun _ => None).

Definition srvEmptyTable : Server :=
  mkServer (sql.mkDB None (fun _ => inr (sql.mkRows (inr productColumns) [] None)))
    clientDown false.

(** The message lib/pq gives for a query against a missing table. *)
Definition errNoTable : string :=
  "pq: relation " +:+ q "products" +:+ " does not exist".

Definition srvNoTable : Server :=
  mkServer (sql.mkDB None (fun _ => inl errNoTable)) clientDown false.

(** ** Plain text and the RFC 3339 grammar *)

(** A byte [encoding/json] copies into a string literal as it is. *)
Definition plainByte (c : ascii) : bool :=
  (byteval c <? 128) && json.htmlSafe (byteval c).

Definition plain (s : string) : bool :=
  forallb plainByte (list_ascii_of_string s).

Definition two_digits (s : string) : bool :=
  match s with
  | String a (String b EmptyString) => json.is_digit a && json.is_digit b
  | _ => false
  end.

Definition four_digits (s : string) : bool :=
  match s with
  | String a (String b (String c (String d EmptyString))) =>
    json.is_digit a && json.is_digit b && json.is_digit c && json.is_digit d
  | _ => false
  end.

(** [time-offset] of RFC 3339: [Z], or a sign, two digits, a colon and
    two digits. *)
Definition isZone (z : list ascii) : bool :=
  match z with
  | [c] => bool_decide (c = "Z"%char)
  | [sg; h1; h2; c; m1; m2] =>
    (bool_decide (sg = "+"%char) || bool_decide (sg = "-"%char))
      && json.is_digit h1 && json.is_digit h2 && bool_decide (c = ":"%char)
      && json.is_digit m1 && json.is_digit m2
  | _ => false
  end.

(** The [date-time] production of RFC 3339 without fractional seconds:
    four digits, two and two separated by hyphens, a [T], three pairs of
    digits separated by colons, and the offset. *)
Definition isRFC3339 (s : string) : bool :=
  match list_ascii_of_string s with
  | y1 :: y2 :: y3 :: y4 :: c1 :: m1 :: m2 :: c2 :: d1 :: d2 :: c3
       :: h1 :: h2 :: c4 :: n1 :: n2 :: c5 :: s1 :: s2 :: zone =>
    json.is_digit y1 && json.is_digit y2 && json.is_digit y3 && json.is_digit y4
      && bool_decide (c1 = "-"%char)
      && json.is_digit m1 && json.is_digit m2 && bool_decide (c2 = "-"%char)
      && json.is_digit d1 && json.is_digit d2 && bool_decide (c3 = "T"%char)
      && json.is_digit h1 && json.is_digit h2 && bool_decide (c4 = ":"%char)
      && json.is_digit n1 && json.is_digit n2 && bool_decide (c5 = ":"%char)
      && json.is_digit s1 && json.is_digit s2 && isZone zone
  | _ => false
  end.

(** The year of a time in its own zone. *)
Definition civilYear (t : time.Time) : Z :=
  fst (fst (time.civil ((time.unixSec t + time.offset t) / 86400))).

(** [P] holds of the [n] integers from [from] on. *)
Fixpoint forallZ (P : Z -> bool) (n : nat) (from : Z) : bool :=
  match n with
  | O => true
  | S n' => P from && forallZ P n' (from + 1)
  end.

(** Month and day as [time.civil] computes them from the day of the
    400-year era. *)
Definition month_day_of_doe (doe : Z) : Z * Z :=
  let yoe := (doe - doe / 1460 + doe / 36524 - doe / 146096) / 365 in
  let doy := doe - (365 * yoe + yoe / 4 - yoe / 100) in
  let mp := (5 * doy + 2) / 153 in
  let d := doy - (153 * mp + 2) / 5 + 1 in
  let m := if mp <? 10 then mp + 3 else mp - 9 in
  (m, d).

Definition month_day_ok (doe : Z) : bool :=
  let '(m, d) := month_day_of_doe doe in
  (1 <=? m) && (m <=? 12) && (1 <=? d) && (d <=? 31).

(** ** Texts inside a JSON string literal *)

(** A byte that may stand unescaped inside a JSON string literal. *)
Definition rawSafeByte (c : ascii) : bool :=
  (32 <=? byteval c) && negb (byteval c =? 34) && negb (byteval c =? 92).

Definition rawSafe (s : string) : bool :=
  forallb rawSafeByte (list_ascii_of_string s).

(** [l] is read by the recogniser as a piece of the inside of a string
    literal: scanning goes on after it as if it were not there. *)
Definition literal_body (l : list ascii) : Prop :=
  forall r, json.scan_string (l ++ r) = json.scan_string r.

(** The values without members or elements that the handlers encode:
    the fields of the structs of [main.go] are booleans and strings, a
    row mapping also holds nil and integers. *)
Inductive Scalar : json.JSON -> Prop :=
| ScalarNull : Scalar json.JNull
| ScalarBool b : Scalar (json.JBool b)
| ScalarInt z : Scalar (json.JInt z)
| ScalarString s : Scalar (json.JString s).

(** What may follow a member's value inside an object. *)
Definition afterValue (c : ascii) : Prop := c = ","%char \/ c = "}"%char.

(** A scanned value other than a float: what the columns of the
    products table give (SERIAL and INTEGER as int64, DECIMAL as bytes,
    VARCHAR and TEXT as text, TIMESTAMP as a time, NULL as nil). *)
Definition notFloat (v : driver.Value) : Prop :=
  match v with
  | driver.VFloat64 _ => False
  | _ => True
  end.

(** A table with two rows; the second has a negative number and text
    that needs escaping. *)
Definition srvSeeded : Server :=
  mkServer
    (sql.mkDB None
       (fun _ => inr (sql.mkRows (inr productColumns)
                        [inr sampleRow;
                         inr [driver.VInt64 (-2); driver.VString ("7" +:+ q " disk");
                              driver.VNil; driver.VBytes (list_byte_of_string "12.50");
                              driver.VInt64 0; driver.VBool true;
                              driver.VTime (time.mkTime 1705314600 0 3600);
                              driver.VTime (time.mkTime 1705314600 0 3600)]]
                        None)))
    clientDown false.

(** The four places of [productsHandler] that answer with an error. *)
Definition stages : list string :=
  ["Failed to query database"; "Failed to get columns"; "Failed to scan row";
   "Error iterating rows"].

(** The four ways a run of [productsHandler] fails, in the order of the
    code: the call that fails, with the label the handler gives it and
    the error the call returns.  A scan fails at the first row whose
    [Scan] returns an error; the iteration fails when every scan went
    well and [rows.Err()] is not nil. *)
Inductive StageFails (s : Server) : string -> string -> Prop :=
| QueryFails err :
    sql.QueryContext (db s) query = inl err ->
    StageFails s "Failed to query database" err
| ColumnsFail rows err :
    sql.QueryContext (db s) query = inr rows ->
    sql.Columns rows = inl err ->
    StageFails s "Failed to get columns" err
| ScanFails rows columns scanned err rest :
    sql.QueryContext (db s) query = inr rows ->
    sql.Columns rows = inr columns ->
    sql.items rows = (inr <$> scanned) ++ inl err :: rest ->
    StageFails s "Failed to scan row" err
| IterationFails rows columns scanned err :
    sql.QueryContext (db s) query = inr rows ->
    sql.Columns rows = inr columns ->
    sql.items rows = inr <$> scanned ->
    sql.Err rows = Some err ->
    StageFails s "Error iterating rows" err.

(** A server whose connection drops after the first row was read. *)
Definition srvCursorLost : Server :=
  mkServer
    (sql.mkDB None
       (fun _ => inr (sql.mkRows (inr productColumns) [inr sampleRow]
                        (Some "driver: bad connection"))))
    clientDown false.

(** ** app/main_test.go: the test configuration *)

(** [os.Getenv]: the value of the variable, empty when it is not set. *)
Definition Getenv (env : gmap string string) (key : string) : string :=
  default EmptyString (env !! key).

Definition getEnvOrDefault (env : gmap string string) (key defaultValue : string)
  : string :=
  let value := Getenv env key in
  if negb (String.eqb value EmptyString) then value else defaultValue.

Record TestConfig := mkTestConfig {
  APIBaseURL : string;
  DBHost : string;
  DBPort : string;
  DBUser : string;
  DBPassword : string;
  DBName : string;
  DBSSLMode : string
}.

Definition getTestConfig (env : gmap string string) : TestConfig :=
  mkTestConfig
    (getEnvOrDefault env "TEST_API_URL" "http://localhost:8080")
    (getEnvOrDefault env "DB_HOST" "localhost")
    (getEnvOrDefault env "DB_PORT" "5432")
    (getEnvOrDefault env "DB_USER" "postgres")
    (getEnvOrDefault env "DB_PASSWORD" "postgres")
    (getEnvOrDefault env "DB_NAME" "demo")
    (getEnvOrDefault env "DB_SSLMODE" "disable").

(** ** Further sample inputs *)

(** A node that carries a tag and, all the same, a complete profile. *)
Definition clientTagged : tailscale.LocalClient :=
  tailscale.mkLocalClient
    (Some (ipnstate.mkStatus "Running"), None)
    (fun _ => inr (apitype.mkWhoIsResponse (tailcfg.mkNode ["tag:ci"])
                     (Some (tailcfg.mkUserProfile "ci@example.com" "CI")))).

(** The bit pattern of a quiet NaN, and a products table one of whose
    rows holds it in a [float8] column. *)
Definition nanBits : Z := 9221120237041090560.

Definition srvNaN : Server :=
  mkServer
    (sql.mkDB None
       (fun _ => inr (sql.mkRows (inr ["id"; "score"])
                        [inr [driver.VInt64 1; driver.VNil];
                         inr [driver.VInt64 2; driver.VFloat64 nanBits]]
                        None)))
    clientDown false.

(** A request that carries a display-name header and no login header. *)
Definition reqNameOnly : http.Request :=
  http.mkRequest (<["Tailscale-User-Name" := ["Mallory"]]> ∅) "192.0.2.7:51234".

(** * Properties *)

(** ** The library models on sample inputs *)

Example FormatRFC3339_epoch :
  time.FormatRFC3339 (time.mkTime 0 0 0) = "1970-01-01T00:00:00Z".
Proof. reflexivity. Qed.

Example FormatRFC3339_leap_day :
  time.FormatRFC3339 (time.mkTime 951827696 0 3600) = "2000-02-29T13:34:56+01:00".
Proof. reflexivity. Qed.

Example FormatRFC3339_before_epoch :
  time.FormatRFC3339 (time.mkTime (-1) 0 (-19800)) = "1969-12-31T18:29:59-05:30".
Proof. reflexivity. Qed.

Example Marshal_nested :
  json.Marshal (json.JObject [("a", json.JArray [json.JInt (-12); json.JNull]);
                              ("b<", json.JString (String "009"%char "x"))])
  = Some ("{" +:+ q "a" +:+ ":[-12,null]," +:+ q ("b" +:+ String backslash "u003c")
            +:+ ":" +:+ q (String backslash "tx") +:+ "}").
Proof. reflexivity. Qed.

Example valid_accepts_nested :
  json.valid (" {" +:+ q "k" +:+ " : [1, -2.5e+3, true, {}, [] , "
                +:+ q (String backslash "u00e9") +:+ "] } " +:+ nl) = true.
Proof. reflexivity. Qed.

Example valid_rejects_trailing_text :
  json.valid ("{" +:+ q "k" +:+ ":1} x") = false.
Proof. reflexivity. Qed.

(** ** Dates in RFC 3339 *)

Lemma forallZ_spec (P : Z -> bool) (n : nat) (from x : Z) :
  forallZ P n from = true -> from <= x < from + Z.of_nat n -> P x = true.
Proof.
  revert from. induction n as [| n IH]; intros from H Hx; [lia |].
  cbn [forallZ] in H. apply andb_prop in H as [H0 H].
  destruct (decide (x = from)) as [-> | Hne]; [exact H0 |].
  apply (IH (from + 1) H). lia.
Qed.

Lemma appendInt_two_digits (x : Z) :
  0 <= x < 100 -> two_digits (time.appendInt x 2) = true.
Proof.
  intros H.
  apply (forallZ_spec (fun x => two_digits (time.appendInt x 2)) (Z.to_nat 100) 0).
  - vm_compute. reflexivity.
  - lia.
Qed.

Lemma appendInt_four_digits (x : Z) :
  0 <= x < 10000 -> four_digits (time.appendInt x 4) = true.
Proof.
  intros H.
  apply (forallZ_spec (fun x => four_digits (time.appendInt x 4)) (Z.to_nat 10000) 0).
  - vm_compute. reflexivity.
  - lia.
Qed.

(** Checked on each day of a 400-year era. *)
Lemma month_day_ok_all (doe : Z) :
  0 <= doe < 146097 -> month_day_ok doe = true.
Proof.
  intros H.
  apply (forallZ_spec month_day_ok (Z.to_nat 146097) 0).
  - vm_compute. reflexivity.
  - lia.
Qed.

Lemma civil_month_day (days : Z) :
  exists y m d,
    time.civil days = (y, m, d) /\ 1 <= m <= 12 /\ 1 <= d <= 31.
Proof.
  unfold time.civil.
  set (z := days + 719468).
  assert (Hdoe : z - z / 146097 * 146097 = z mod 146097).
  { rewrite Z.mod_eq by lia. ring. }
  rewrite Hdoe.
  assert (Hr : 0 <= z mod 146097 < 146097) by (apply Z.mod_pos_bound; lia).
  pose proof (month_day_ok_all _ Hr) as Hok.
  unfold month_day_ok, month_day_of_doe in Hok. cbv zeta in Hok |- *.
  eexists _, _, _. split; [reflexivity |].
  repeat (apply andb_prop in Hok as [Hok ?]). lia.
Qed.

(** For a year of four digits and an offset below a day,
    [Format(time.RFC3339)] yields a text of the RFC 3339 grammar. *)
Lemma FormatRFC3339_shape (t : time.Time) :
  0 <= civilYear t <= 9999 ->
  -86400 < time.offset t < 86400 ->
  isRFC3339 (time.FormatRFC3339 t) = true.
Proof.
  intros Hy Ho. unfold civilYear in Hy. unfold time.FormatRFC3339.
  set (abs := time.unixSec t + time.offset t) in *.
  destruct (civil_month_day (abs / 86400)) as (y & m & d & Hc & Hm & Hd).
  rewrite Hc in Hy |- *. cbn [fst] in Hy.
  assert (Hs : 0 <= abs mod 86400 < 86400) by (apply Z.mod_pos_bound; lia).
  set (secs := abs mod 86400) in *.
  set (zone := Z.quot (time.offset t) 60).
  assert (Hz : 0 <= Z.abs zone < 1440).
  { subst zone. split; [lia |].
    rewrite <- Z.quot_abs by lia. apply Z.quot_lt_upper_bound; lia. }
  pose proof (appendInt_four_digits y ltac:(lia)) as Y.
  pose proof (appendInt_two_digits m ltac:(lia)) as M.
  pose proof (appendInt_two_digits d ltac:(lia)) as D.
  pose proof (appendInt_two_digits (secs / 3600)
                ltac:(split; [apply Z.div_pos; lia
                             | apply Z.div_lt_upper_bound; lia])) as Hh.
  pose proof (appendInt_two_digits (secs mod 3600 / 60)
                ltac:(pose proof (Z.mod_pos_bound secs 3600 ltac:(lia));
                      split; [apply Z.div_pos; lia
                             | apply Z.div_lt_upper_bound; lia])) as Hn.
  pose proof (appendInt_two_digits (secs mod 60)
                ltac:(pose proof (Z.mod_pos_bound secs 60 ltac:(lia)); lia)) as Hsec.
  pose proof (appendInt_two_digits (Z.abs zone / 60)
                ltac:(split; [apply Z.div_pos; lia
                             | apply Z.div_lt_upper_bound; lia])) as Zh.
  pose proof (appendInt_two_digits (Z.abs zone mod 60)
                ltac:(pose proof (Z.mod_pos_bound (Z.abs zone) 60 ltac:(lia)); lia)) as Zm.
  revert Y M D Hh Hn Hsec Zh Zm.
  generalize (time.appendInt y 4) (time.appendInt m 2) (time.appendInt d 2)
    (time.appendInt (secs / 3600) 2) (time.appendInt (secs mod 3600 / 60) 2)
    (time.appendInt (secs mod 60) 2) (time.appendInt (Z.abs zone / 60) 2)
    (time.appendInt (Z.abs zone mod 60) 2).
  intros sy sm sd sh sn ss zh zm Y M D Hh Hn Hsec Zh Zm.
  destruct sy as [| y1 [| y2 [| y3 [| y4 [|]]]]]; try discriminate Y.
  destruct sm as [| m1 [| m2 [|]]]; try discriminate M.
  destruct sd as [| d1 [| d2 [|]]]; try discriminate D.
  destruct sh as [| h1 [| h2 [|]]]; try discriminate Hh.
  destruct sn as [| n1 [| n2 [|]]]; try discriminate Hn.
  destruct ss as [| s1 [| s2 [|]]]; try discriminate Hsec.
  destruct zh as [| a1 [| a2 [|]]]; try discriminate Zh.
  destruct zm as [| b1 [| b2 [|]]]; try discriminate Zm.
  cbn [two_digits four_digits] in *.
  repeat match goal with H : _ && _ = true |- _ => apply andb_prop in H as [? ?] end.
  unfold isRFC3339.
  destruct (time.offset t =? 0); destruct (zone <? 0);
    cbv beta iota zeta delta [String.append list_ascii_of_string isZone];
    repeat match goal with H : json.is_digit _ = true |- _ => rewrite H; clear H end;
    reflexivity.
Qed.

Example sampleRow_created_at_is_RFC3339 :
  isRFC3339 (time.FormatRFC3339 (time.mkTime 1705314600 0 0)) = true.
Proof. reflexivity. Qed.

(** ** Strings that need no escaping *)

Lemma append_assoc (s1 s2 s3 : string) :
  (s1 +:+ s2) +:+ s3 = s1 +:+ (s2 +:+ s3).
Proof.
  induction s1 as [| c s1 IH]; [reflexivity |].
  change (String c ((s1 +:+ s2) +:+ s3) = String c (s1 +:+ (s2 +:+ s3))).
  by rewrite IH.
Qed.

Lemma escape_plain (s : string) : plain s = true -> json.escape 0 s = s.
Proof.
  induction s as [| c s IH]; [reflexivity |].
  unfold plain. cbn [list_ascii_of_string forallb]. intros H.
  apply andb_prop in H as [Hc Hs]. apply andb_prop in Hc as [Hlt Hsafe].
  cbn [json.escape]. rewrite Hlt, Hsafe. cbn. by rewrite (IH Hs).
Qed.

Lemma encodeString_plain (s : string) :
  plain s = true -> json.encodeString s = q s.
Proof. intros H. unfold json.encodeString. by rewrite escape_plain. Qed.

Lemma string_of_byte_ascii (b : ascii) :
  byteval b < 128 -> string_of_byte b = str1 b.
Proof.
  intros H. unfold string_of_byte.
  destruct b as [[] [] [] [] [] [] [] []];
    first [ vm_compute in H; discriminate | reflexivity ].
Qed.

(** Unfolding the monad: one pass exposes the binds of the called
    operations, the next reduces them. *)
Ltac run_handler :=
  repeat progress
    unfold mbind, Handler_bind, mret, Handler_ret, emit, onWriter, setHeader,
      logPrintf, PingContext, ClientStatus, ClientWhoIs, QueryContext;
  cbv beta iota.

(** ** The identity resolver *)

Lemma eqb_empty_false (s : string) :
  s <> EmptyString -> String.eqb s EmptyString = false.
Proof. intros H. by apply String.eqb_neq. Qed.

Lemma tailscaleWhois_header (s : Server) (r : http.Request) (st : State) :
  hasIdentityHeader r ->
  tailscaleWhois s r st =
    ((Some (WhoIsData.mk (http.Get (http.Header_ r) "Tailscale-User-Login")
              (http.Get (http.Header_ r) "Tailscale-User-Name")),
      None), st).
Proof.
  intros H. unfold tailscaleWhois.
  rewrite (eqb_empty_false _ H). reflexivity.
Qed.

Lemma tailscaleWhois_fails (s : Server) (r : http.Request) (st : State) :
  ~ hasIdentityHeader r ->
  LookupFails s r ->
  exists e,
    tailscaleWhois s r st =
      ((None, Some e), mkState (w st) (trace st ++ [EvWhoIs (http.RemoteAddr r)])).
Proof.
  intros Hno Hfail. unfold tailscaleWhois.
  destruct (String.eqb_spec (http.Get (http.Header_ r) "Tailscale-User-Login")
              EmptyString) as [_ | Hne]; [| by destruct Hno].
  cbn [negb]. run_handler.
  destruct Hfail as [err H | whois H Ht | whois H Hp | whois p H Hp Hl]; rewrite H.
  - destruct (tsnetMode s); eauto.
  - rewrite Ht. eauto.
  - rewrite Hp. destruct (tailcfg.IsTagged _); eauto.
  - rewrite Hp, Hl. destruct (tailcfg.IsTagged _); eauto.
Qed.

(** Without the header the resolver succeeds exactly when no failure
    reason applies. *)
Lemma tailscaleWhois_lookup_result (s : Server) (r : http.Request) (st : State) :
  ~ hasIdentityHeader r ->
  (fst (fst (tailscaleWhois s r st)) = None <-> LookupFails s r).
Proof.
  intros Hno. split.
  - unfold tailscaleWhois.
    destruct (String.eqb_spec (http.Get (http.Header_ r) "Tailscale-User-Login")
                EmptyString) as [_ | Hne]; [| by destruct Hno].
    cbn [negb]. run_handler.
    destruct (tailscale.WhoIs (client s) (http.RemoteAddr r)) as [err | whois] eqn:H.
    + intros _. by eapply LookupError.
    + destruct (tailcfg.IsTagged (apitype.Node whois)) eqn:Ht.
      { intros _. by eapply LookupTagged. }
      destruct (apitype.UserProfile whois) as [p |] eqn:Hp.
      2:{ intros _. by eapply LookupNoProfile. }
      destruct (String.eqb_spec (tailcfg.LoginName p) EmptyString) as [Hl | Hl].
      { intros _. by eapply LookupNoLogin. }
      cbn. discriminate.
  - intros Hfail. destruct (tailscaleWhois_fails s r st Hno Hfail) as [e ->].
    reflexivity.
Qed.

(** ** The user handler *)

Lemma Marshal_UserInfo_total (u : UserInfo.t) :
  exists text, json.Marshal (UserInfo.toJSON u) = Some text.
Proof.
  destruct u as [c l d f e].
  destruct l, d, f, e; cbn; eexists; reflexivity.
Qed.

Lemma serve_jsonEncode_after_header (j : json.JSON) (text : string) (evs : list Event) :
  json.Marshal j = Some text ->
  let st := mkState (http.mkRW jsonHeader None ∅ EmptyString) evs in
  http.finish (w (snd (jsonEncode j st))) = okJSON text.
Proof.
  intros H st. unfold jsonEncode. rewrite H. reflexivity.
Qed.

(** What [userHandler] answers when the resolver has given an identity:
    the [UserInfo] it builds, marshalled. *)
Lemma userHandler_header_response (s : Server) (r : http.Request) :
  hasIdentityHeader r ->
  let login := http.Get (http.Header_ r) "Tailscale-User-Login" in
  let name := http.Get (http.Header_ r) "Tailscale-User-Name" in
  let info := UserInfo.mk true login name (firstInitial name login) EmptyString in
  exists text,
    json.Marshal (UserInfo.toJSON info) = Some text /\
    serve (userHandler s r) = (okJSON text, []).
Proof.
  intros H login name info.
  destruct (Marshal_UserInfo_total info) as [text Ht].
  exists text. split; [exact Ht |].
  unfold serve, userHandler. run_handler.
  rewrite (tailscaleWhois_header s r _ H). cbv beta iota.
  fold login name. change (UserInfo.toJSON _) with (UserInfo.toJSON info).
  unfold jsonEncode. rewrite Ht. reflexivity.
Qed.

Lemma UserInfo_members (u : UserInfo.t) :
  member "connected" (UserInfo.toJSON u) = Some (json.JBool (UserInfo.Connected u)) /\
  member "login_name" (UserInfo.toJSON u) =
    (if String.eqb (UserInfo.LoginName u) EmptyString then None
     else Some (json.JString (UserInfo.LoginName u))) /\
  member "display_name" (UserInfo.toJSON u) =
    (if String.eqb (UserInfo.DisplayName u) EmptyString then None
     else Some (json.JString (UserInfo.DisplayName u))).
Proof.
  destruct u as [c l d f e].
  destruct l, d, f, e; repeat split; reflexivity.
Qed.

(** C1. A request to /api/user that carries a non-empty
    Tailscale-User-Login header is answered with status 200 and the
    encoding of a [UserInfo] that has connected = true, login_name equal
    to the login header and display_name equal to the name header (left
    out of the object when that header is empty), whatever the server's
    local client would have answered: the handler makes no call at all,
    so [WhoIs] is not consulted. *)
Theorem userHandler_identity_header_verbatim (s : Server) (r : http.Request) :
  hasIdentityHeader r ->
  exists (info : UserInfo.t) (text : string),
    UserInfo.Connected info = true /\
    UserInfo.LoginName info = loginHeader r /\
    UserInfo.DisplayName info = nameHeader r /\
    member "connected" (UserInfo.toJSON info) = Some (json.JBool true) /\
    member "login_name" (UserInfo.toJSON info) = Some (json.JString (loginHeader r)) /\
    member "display_name" (UserInfo.toJSON info) =
      (if String.eqb (nameHeader r) EmptyString then None
       else Some (json.JString (nameHeader r))) /\
    json.Marshal (UserInfo.toJSON info) = Some text /\
    serve (userHandler s r) =
      (http.mkResponse 200 jsonHeader (text +:+ nl), []).
Proof.
  intros H.
  destruct (userHandler_header_response s r H) as (text & Ht & Hs).
  exists (UserInfo.mk true (loginHeader r) (nameHeader r)
            (firstInitial (nameHeader r) (loginHeader r)) EmptyString), text.
  split; [reflexivity |]. split; [reflexivity |]. split; [reflexivity |].
  destruct (UserInfo_members
              (UserInfo.mk true (loginHeader r) (nameHeader r)
                 (firstInitial (nameHeader r) (loginHeader r)) EmptyString))
    as (Hc & Hl & Hd).
  split; [exact Hc |].
  split.
  { rewrite Hl. cbn [UserInfo.LoginName]. unfold loginHeader.
    by rewrite (eqb_empty_false _ H). }
  split; [exact Hd |].
  split; [exact Ht | exact Hs].
Qed.

Lemma userHandler_identity_header_verbatim_witness :
  hasIdentityHeader reqAlice /\
  exists (info : UserInfo.t) (text : string),
    UserInfo.Connected info = true /\
    UserInfo.LoginName info = "alice@example.com" /\
    UserInfo.DisplayName info = "Alice Liddell" /\
    json.Marshal (UserInfo.toJSON info) = Some text /\
    serve (userHandler srvDown reqAlice) =
      (http.mkResponse 200 jsonHeader (text +:+ nl), []).
Proof.
  assert (H : hasIdentityHeader reqAlice) by (vm_compute; discriminate).
  split; [exact H |].
  destruct (userHandler_identity_header_verbatim srvDown reqAlice H)
    as (info & text & Hc & Hl & Hd & _ & _ & _ & Ht & Hs).
  exists info, text. repeat split; assumption.
Defined.

(** C2. A request to /api/user without the identity header whose network
    lookup fails, for whichever of the four reasons, is answered with
    status 200 and the object whose connected member is false and whose
    error member is the non-empty text "Tailscale not available"; the
    reason itself only reaches the log. *)
Theorem userHandler_lookup_failure_is_200 (s : Server) (r : http.Request) :
  ~ hasIdentityHeader r ->
  LookupFails s r ->
  let info := UserInfo.mk false EmptyString EmptyString EmptyString
                "Tailscale not available" in
  let text := "{" +:+ q "connected" +:+ ":false," +:+ q "error" +:+ ":"
                  +:+ q "Tailscale not available" +:+ "}" in
  json.Marshal (UserInfo.toJSON info) = Some text /\
  exists reason,
    serve (userHandler s r) =
      (http.mkResponse 200 jsonHeader (text +:+ nl),
       [EvWhoIs (http.RemoteAddr r);
        EvLog ("Tailscale lookup warning: " +:+ reason)]).
Proof.
  intros Hno Hfail info text. split; [reflexivity |].
  unfold serve, userHandler. run_handler.
  destruct (tailscaleWhois_fails s r
              (mkState (http.mkRW jsonHeader None ∅ EmptyString) []) Hno Hfail)
    as [e He].
  exists e.
  change (http.HeaderSet "Content-Type" "application/json"
            (http.header (w initState))) with jsonHeader.
  change (http.wroteHeader (w initState)) with (@None Z).
  change (http.sentHeader (w initState)) with (∅ : http.Header).
  change (http.written (w initState)) with EmptyString.
  change (trace initState) with (@nil Event).
  rewrite He. reflexivity.
Qed.

Lemma userHandler_lookup_failure_is_200_witness :
  ~ hasIdentityHeader reqBare /\
  LookupFails srvDown reqBare /\
  exists reason,
    serve (userHandler srvDown reqBare) =
      (http.mkResponse 200 jsonHeader
         (("{" +:+ q "connected" +:+ ":false," +:+ q "error" +:+ ":"
               +:+ q "Tailscale not available" +:+ "}") +:+ nl),
       [EvWhoIs "192.0.2.7:51234";
        EvLog ("Tailscale lookup warning: " +:+ reason)]).
Proof.
  assert (Hno : ~ hasIdentityHeader reqBare).
  { intros H. apply H. reflexivity. }
  assert (Hfail : LookupFails srvDown reqBare).
  { eapply LookupError. reflexivity. }
  split; [exact Hno |]. split; [exact Hfail |].
  exact (proj2 (userHandler_lookup_failure_is_200 srvDown reqBare Hno Hfail)).
Defined.

(** C10. Only the login header matters for the trusted path: with a
    non-empty Tailscale-User-Login and an empty Tailscale-User-Name the
    answer is status 200 with exactly the members connected = true,
    login_name and first_initial (no display_name), first_initial being
    [string(login[0])], and no call is made to the local client. *)
Theorem userHandler_login_header_alone (s : Server) (r : http.Request) :
  hasIdentityHeader r ->
  nameHeader r = EmptyString ->
  exists (b : ascii) (rest text : string),
    loginHeader r = String b rest /\
    json.Marshal
      (json.JObject [("connected", json.JBool true);
                     ("login_name", json.JString (loginHeader r));
                     ("first_initial", json.JString (string_of_byte b))])
      = Some text /\
    serve (userHandler s r) =
      (http.mkResponse 200 jsonHeader (text +:+ nl), []).
Proof.
  intros H Hname.
  destruct (userHandler_header_response s r H) as (text & Ht & Hs).
  fold (loginHeader r) (nameHeader r) in Ht.
  unfold hasIdentityHeader in H. fold (loginHeader r) in H.
  destruct (loginHeader r) as [| b rest] eqn:Hlogin; [done |].
  exists b, rest, text. split; [reflexivity |].
  rewrite Hname in Ht. cbn in Ht.
  destruct (string_of_byte b) as [| c0 f] eqn:Hf.
  { exfalso. revert Hf. unfold string_of_byte, utf8.EncodeRune.
    repeat case_match; discriminate. }
  split; [exact Ht | exact Hs].
Qed.

Lemma userHandler_login_header_alone_witness :
  hasIdentityHeader reqLoginOnly /\
  nameHeader reqLoginOnly = EmptyString /\
  exists (b : ascii) (rest text : string),
    loginHeader reqLoginOnly = String b rest /\
    json.Marshal
      (json.JObject [("connected", json.JBool true);
                     ("login_name", json.JString (loginHeader reqLoginOnly));
                     ("first_initial", json.JString (string_of_byte b))])
      = Some text /\
    serve (userHandler srvDown reqLoginOnly) =
      (http.mkResponse 200 jsonHeader (text +:+ nl), []).
Proof.
  assert (H : hasIdentityHeader reqLoginOnly) by (vm_compute; discriminate).
  assert (Hn : nameHeader reqLoginOnly = EmptyString) by reflexivity.
  split; [exact H |]. split; [exact Hn |].
  exact (userHandler_login_header_alone srvDown reqLoginOnly H Hn).
Defined.

(** For header values that need no escaping the body shows them as they
    were received. *)
Lemma userHandler_header_body_plain (s : Server) (r : http.Request)
    (b c : ascii) (login name : string) :
  loginHeader r = String b login ->
  nameHeader r = String c name ->
  plain (String b login) = true ->
  plain (String c name) = true ->
  fst (serve (userHandler s r)) =
    http.mkResponse 200 jsonHeader
      (("{" +:+ q "connected" +:+ ":true,"
            +:+ q "login_name" +:+ ":" +:+ q (String b login) +:+ ","
            +:+ q "display_name" +:+ ":" +:+ q (String c name) +:+ ","
            +:+ q "first_initial" +:+ ":" +:+ q (str1 c) +:+ "}") +:+ nl).
Proof.
  intros Hl Hn Pl Pn.
  assert (H : hasIdentityHeader r).
  { unfold hasIdentityHeader. fold (loginHeader r). by rewrite Hl. }
  destruct (userHandler_header_response s r H) as (text & Ht & ->).
  fold (loginHeader r) (nameHeader r) in Ht. rewrite Hl, Hn in Ht.
  assert (Pc : plain (str1 c) = true).
  { unfold plain, str1 in Pn |- *. cbn [list_ascii_of_string forallb] in Pn |- *.
    apply andb_prop in Pn as [Hc _]. by rewrite Hc. }
  assert (Hc : byteval c < 128).
  { unfold plain in Pc. cbn [list_ascii_of_string forallb str1] in Pc.
    apply andb_prop in Pc as [Pc _]. apply andb_prop in Pc as [Pc _]. lia. }
  cbn [firstInitial] in Ht. rewrite (string_of_byte_ascii c Hc) in Ht.
  cbn in Ht.
  rewrite !encodeString_plain in Ht by (assumption || reflexivity).
  injection Ht as <-. unfold okJSON, q. cbn [fst]. f_equal.
  rewrite !append_assoc. cbn. rewrite ?append_assoc. reflexivity.
Qed.

Lemma tailscaleWhois_lookup_success (s : Server) (r : http.Request) (st : State)
    (whois : apitype.WhoIsResponse) (profile : tailcfg.UserProfile) :
  ~ hasIdentityHeader r ->
  tailscale.WhoIs (client s) (http.RemoteAddr r) = inr whois ->
  tailcfg.IsTagged (apitype.Node whois) = false ->
  apitype.UserProfile whois = Some profile ->
  tailcfg.LoginName profile <> EmptyString ->
  tailscaleWhois s r st =
    ((Some (WhoIsData.mk (tailcfg.LoginName profile) (tailcfg.DisplayName profile)),
      None),
     mkState (w st) (trace st ++ [EvWhoIs (http.RemoteAddr r)])).
Proof.
  intros Hno H Ht Hp Hl. unfold tailscaleWhois.
  destruct (String.eqb_spec (http.Get (http.Header_ r) "Tailscale-User-Login")
              EmptyString) as [_ | Hne]; [| by destruct Hno].
  cbn [negb]. run_handler. rewrite H, Ht, Hp, (eqb_empty_false _ Hl).
  reflexivity.
Qed.

(** An identity found by the lookup is reported like one taken from the
    headers, after the one call to [WhoIs]. *)
Lemma userHandler_lookup_success (s : Server) (r : http.Request)
    (whois : apitype.WhoIsResponse) (profile : tailcfg.UserProfile) :
  ~ hasIdentityHeader r ->
  tailscale.WhoIs (client s) (http.RemoteAddr r) = inr whois ->
  tailcfg.IsTagged (apitype.Node whois) = false ->
  apitype.UserProfile whois = Some profile ->
  tailcfg.LoginName profile <> EmptyString ->
  let info := UserInfo.mk true (tailcfg.LoginName profile) (tailcfg.DisplayName profile)
                (firstInitial (tailcfg.DisplayName profile) (tailcfg.LoginName profile))
                EmptyString in
  exists text,
    json.Marshal (UserInfo.toJSON info) = Some text /\
    serve (userHandler s r) = (okJSON text, [EvWhoIs (http.RemoteAddr r)]).
Proof.
  intros Hno H Ht Hp Hl info.
  destruct (Marshal_UserInfo_total info) as [text Htext].
  exists text. split; [exact Htext |].
  unfold serve, userHandler. run_handler.
  rewrite (tailscaleWhois_lookup_success s r _ whois profile Hno H Ht Hp Hl).
  cbv beta iota. change (UserInfo.toJSON _) with (UserInfo.toJSON info).
  unfold jsonEncode. rewrite Htext. reflexivity.
Qed.

(** ** Lookup errors and the server mode *)

Lemma tailscaleWhois_lookup_error (s : Server) (r : http.Request) (err : string)
    (st : State) :
  ~ hasIdentityHeader r ->
  tailscale.WhoIs (client s) (http.RemoteAddr r) = inl err ->
  tailscaleWhois s r st =
    ((None, Some (if tsnetMode s then errTsnet err else errStandard)),
     mkState (w st) (trace st ++ [EvWhoIs (http.RemoteAddr r)])).
Proof.
  intros Hno H. unfold tailscaleWhois.
  destruct (String.eqb_spec (http.Get (http.Header_ r) "Tailscale-User-Login")
              EmptyString) as [_ | Hne]; [| by destruct Hno].
  cbn [negb]. run_handler. rewrite H.
  destruct (tsnetMode s); reflexivity.
Qed.

Lemma userHandler_lookup_error (s : Server) (r : http.Request) (err : string) :
  ~ hasIdentityHeader r ->
  tailscale.WhoIs (client s) (http.RemoteAddr r) = inl err ->
  serve (userHandler s r) =
    (http.mkResponse 200 jsonHeader (notAvailableText +:+ nl),
     [EvWhoIs (http.RemoteAddr r);
      EvLog ("Tailscale lookup warning: "
               +:+ (if tsnetMode s then errTsnet err else errStandard))]).
Proof.
  intros Hno H. unfold serve, userHandler. run_handler.
  rewrite (tailscaleWhois_lookup_error s r err _ Hno H). reflexivity.
Qed.

(** C8 (the code diverges). When the lookup itself errors, the
    resolver's error differs between tsnet mode and standard mode, as
    claimed.  But [userHandler] sets [Error] to one fixed text on every
    error, against its own comment (only set error if it is not a
    daemon-not-available error): the answers in the two modes are the
    same response, both with the error member, and the reason the
    resolver built for the mode reaches the server log only.  A caller
    cannot tell the two situations apart from the response. *)
Theorem lookup_error_mode_reaches_log_only (d : sql.DB) (c : tailscale.LocalClient)
    (r : http.Request) (err : string) :
  ~ hasIdentityHeader r ->
  tailscale.WhoIs c (http.RemoteAddr r) = inl err ->
  let tsnet := mkServer d c true in
  let std := mkServer d c false in
  (forall st, fst (tailscaleWhois tsnet r st) = (None, Some (errTsnet err))) /\
  (forall st, fst (tailscaleWhois std r st) = (None, Some errStandard)) /\
  errTsnet err <> errStandard /\
  fst (serve (userHandler tsnet r)) = fst (serve (userHandler std r)) /\
  fst (serve (userHandler std r)) =
    http.mkResponse 200 jsonHeader (notAvailableText +:+ nl) /\
  snd (serve (userHandler tsnet r)) =
    [EvWhoIs (http.RemoteAddr r);
     EvLog ("Tailscale lookup warning: " +:+ errTsnet err)] /\
  snd (serve (userHandler std r)) =
    [EvWhoIs (http.RemoteAddr r);
     EvLog ("Tailscale lookup warning: " +:+ errStandard)].
Proof.
  intros Hno H tsnet std.
  assert (Ht : tailscale.WhoIs (client tsnet) (http.RemoteAddr r) = inl err) by exact H.
  assert (Hs : tailscale.WhoIs (client std) (http.RemoteAddr r) = inl err) by exact H.
  split.
  { intros st. by rewrite (tailscaleWhois_lookup_error tsnet r err st Hno Ht). }
  split.
  { intros st. by rewrite (tailscaleWhois_lookup_error std r err st Hno Hs). }
  split; [discriminate |].
  rewrite (userHandler_lookup_error tsnet r err Hno Ht).
  rewrite (userHandler_lookup_error std r err Hno Hs).
  repeat split.
Qed.

Lemma lookup_error_mode_reaches_log_only_witness :
  ~ hasIdentityHeader reqBare /\
  tailscale.WhoIs clientDown (http.RemoteAddr reqBare)
    = inl "failed to connect to local tailscaled" /\
  fst (serve (userHandler (mkServer dbDown clientDown true) reqBare))
    = fst (serve (userHandler (mkServer dbDown clientDown false) reqBare)).
Proof.
  assert (Hno : ~ hasIdentityHeader reqBare).
  { intros H. apply H. reflexivity. }
  split; [exact Hno |]. split; [reflexivity |].
  exact (proj1 (proj2 (proj2 (proj2
           (lookup_error_mode_reaches_log_only dbDown clientDown reqBare
              "failed to connect to local tailscaled" Hno eq_refl))))).
Defined.

(** The input on which the divergence shows: with the local client
    unreachable and no identity header, the answer in tsnet mode and the
    answer in standard mode are the same response. *)
Lemma lookup_error_modes_indistinguishable :
  distinguishable
    (fst (serve (userHandler (mkServer dbDown clientDown true) reqBare)))
    (fst (serve (userHandler (mkServer dbDown clientDown false) reqBare)))
  = false.
Proof. reflexivity. Qed.

(** ** The first initial *)

Lemma mkbyte_byteval (b : ascii) : mkbyte (byteval b) = b.
Proof. destruct b as [[] [] [] [] [] [] [] []]; reflexivity. Qed.

(** For a name that starts with an ASCII byte, [string(name[0])] is the
    first character. *)
Lemma firstInitial_ascii (b : ascii) (rest login : string) :
  byteval b < 128 ->
  firstInitial (String b rest) login = firstCharacter (String b rest).
Proof.
  intros H. unfold firstInitial, firstCharacter, string_of_byte.
  destruct b as [[] [] [] [] [] [] [] []];
    first [ vm_compute in H; discriminate | destruct rest; reflexivity ].
Qed.

Lemma firstInitial_falls_back_to_login (login : string) :
  firstInitial EmptyString login =
    match login with
    | String b _ => string_of_byte b
    | EmptyString => EmptyString
    end.
Proof. reflexivity. Qed.

(** C9 at a display name that starts with a non-ASCII character: the
    identity resolves, the first character of the display name is the two
    bytes [195 137], and the first_initial member of the answer is the
    two bytes [195 131] (U+00C3), the UTF-8 encoding of the code point
    numbered by the name's first byte. *)
Theorem userHandler_first_initial_of_accented_name :
  firstCharacter nameEmile = of_bytes [195; 137] /\
  firstInitial nameEmile "emile@example.com" = of_bytes [195; 131] /\
  fst (serve (userHandler srvEmile reqBare)) =
    http.mkResponse 200 jsonHeader
      (("{" +:+ q "connected" +:+ ":true,"
            +:+ q "login_name" +:+ ":" +:+ q "emile@example.com" +:+ ","
            +:+ q "display_name" +:+ ":" +:+ q nameEmile +:+ ","
            +:+ q "first_initial" +:+ ":" +:+ q (of_bytes [195; 131]) +:+ "}")
         +:+ nl).
Proof. repeat split. Qed.

(** ** The health handler *)

(** C3 (as amended). Whatever the ping and the status call return,
    /health answers 200 with an object of three members: status is "ok",
    database is "connected" exactly when the ping succeeds and
    "disconnected" otherwise, and the member named [tailscale] is
    "connected" for the backend state "Running", the raw backend state
    otherwise, and "unknown" when the status call fails or returns
    nothing; each of the two depends on its own call only.  With the
    database down and the local client unreachable the body is the object
    status "ok", database "disconnected", tailscale "unknown". *)
Theorem healthHandler_reports_each_dependency (s : Server) (r : http.Request) :
  (exists text,
     json.Marshal
       (json.JObject [("status", json.JString "ok");
                      ("database", json.JString (databaseField s));
                      ("tailscale", json.JString (tailscaleField s))])
       = Some text /\
     serve (healthHandler s r) =
       (http.mkResponse 200 jsonHeader (text +:+ nl), [EvPing; EvStatus])) /\
  fst (serve (healthHandler srvDown reqBare)) =
    http.mkResponse 200 jsonHeader (degradedHealthBody +:+ nl).
Proof.
  split; [| reflexivity].
  unfold serve, healthHandler, databaseField, tailscaleField. run_handler.
  destruct (sql.PingContext (db s)) as [e |];
    destruct (tailscale.Status (client s)) as [[st |] [e' |]];
    try destruct (String.eqb (ipnstate.BackendState st) "Running");
    eexists; (split; [reflexivity | reflexivity]).
Qed.

(** C3 as stated fails on the literal body: with the database down and
    the local client unreachable the answer has no member [network]; the
    body is not the quoted text, with or without the final line feed. *)
Lemma healthHandler_body_has_no_network_member :
  http.Body (fst (serve (healthHandler srvDown reqBare))) <> claimedHealthBody /\
  http.Body (fst (serve (healthHandler srvDown reqBare))) <> claimedHealthBody +:+ nl /\
  http.Body (fst (serve (healthHandler srvDown reqBare))) = degradedHealthBody +:+ nl.
Proof. repeat split; discriminate. Qed.

(** ** The row marshaller *)

Lemma map_fmap {A B} (f : A -> B) (l : list A) : map f l = f <$> l.
Proof. induction l as [| x l IH]; [reflexivity |]. cbn. by rewrite IH. Qed.

(** After the conversion no byte slice and no time is left, so a row
    never asks [encoding/json] for base64 or for [MarshalJSON]. *)
Lemma coerce_range (val : driver.Value) :
  match coerce val with
  | driver.VBytes _ | driver.VTime _ => False
  | _ => True
  end.
Proof. by destruct val. Qed.

Lemma fillProduct_lookup_notin (values : list driver.Value) (columns : list string)
    (i : nat) (product : gmap string driver.Value) (k : string) :
  k ∉ columns ->
  fillProduct i columns values product !! k = product !! k.
Proof.
  revert i product.
  induction columns as [| c columns IH]; intros i product Hk; [reflexivity |].
  apply not_elem_of_cons in Hk as [Hkc Hk]. cbn.
  rewrite IH by exact Hk. by apply lookup_insert_ne.
Qed.

(** A column holds the converted value of its last occurrence. *)
Lemma fillProduct_lookup (values : list driver.Value) (columns : list string) :
  forall (i j : nat) (product : gmap string driver.Value) (col : string),
    columns !! j = Some col ->
    col ∉ drop (S j) columns ->
    fillProduct i columns values product !! col
      = Some (coerce (nth (i + j) values driver.VNil)).
Proof.
  induction columns as [| c columns IH]; intros i j product col Hj Hlast;
    [discriminate |].
  destruct j as [| j].
  - injection Hj as ->. cbn in Hlast. rewrite drop_0 in Hlast. cbn.
    rewrite fillProduct_lookup_notin by exact Hlast.
    rewrite lookup_insert_eq. by rewrite Nat.add_0_r.
  - cbn in Hj, Hlast. cbn.
    rewrite (IH (S i) j _ col Hj Hlast). by rewrite Nat.add_succ_r.
Qed.

Lemma dom_fillProduct (values : list driver.Value) (columns : list string)
    (i : nat) (product : gmap string driver.Value) :
  dom (fillProduct i columns values product) = list_to_set columns ∪ dom product.
Proof.
  revert i product.
  induction columns as [| c columns IH]; intros i product; cbn.
  - set_solver.
  - rewrite IH, dom_insert_L. set_solver.
Qed.

Lemma objectKeys_jsonOfProduct (enc : Encoders) (m : gmap string driver.Value) :
  objectKeys (jsonOfProduct enc m) = productKeys m.
Proof.
  unfold objectKeys, jsonOfProduct, productKeys.
  rewrite !map_fmap, <- list_fmap_compose. reflexivity.
Qed.

#[local] Instance entry_le_total {A} :
  Total (fun a b : string * A => String.le (fst a) (fst b)).
Proof. intros a b. apply (total String.le). Qed.

Lemma productKeys_sorted (m : gmap string driver.Value) :
  StronglySorted String.le (productKeys m).
Proof.
  unfold productKeys, sortedEntries.
  apply Sorted_StronglySorted; [apply _ |].
  eapply Sorted_fmap; [| apply Sorted_merge_sort; apply _].
  intros x y H. exact H.
Qed.

Lemma productKeys_perm (m : gmap string driver.Value) :
  productKeys m ≡ₚ (map_to_list m).*1.
Proof.
  unfold productKeys, sortedEntries. by rewrite merge_sort_Permutation.
Qed.

Lemma productKeys_NoDup (m : gmap string driver.Value) : NoDup (productKeys m).
Proof. rewrite productKeys_perm. apply NoDup_fst_map_to_list. Qed.

Lemma elem_of_productKeys (m : gmap string driver.Value) (k : string) :
  k ∈ productKeys m <-> is_Some (m !! k).
Proof.
  rewrite productKeys_perm, list_elem_of_fmap. split.
  - intros ([k' v] & -> & H). apply elem_of_map_to_list in H. by exists v.
  - intros [v H]. exists (k, v). split; [reflexivity |].
    by apply elem_of_map_to_list.
Qed.

Lemma elem_of_marshalRow_keys (columns : list string) (values : list driver.Value)
    (k : string) :
  k ∈ productKeys (marshalRow columns values) <-> k ∈ columns.
Proof.
  rewrite elem_of_productKeys, <- elem_of_dom.
  unfold marshalRow. rewrite dom_fillProduct, dom_empty_L.
  rewrite elem_of_union, elem_of_list_to_set. set_solver.
Qed.

(** *** The row loop *)

Lemma scanRows_ok_from (columns : list string) (rows : list (list driver.Value))
    (done : list (gmap string driver.Value)) :
  scanRows columns (inr <$> rows) (Some done)
    = inr (Some (done ++ (marshalRow columns <$> rows))).
Proof.
  revert done. induction rows as [| v rows IH]; intros done; cbn.
  - by rewrite app_nil_r.
  - rewrite IH. by rewrite <- app_assoc.
Qed.

(** When every [Scan] succeeds the loop yields one mapping per row, in
    row order, and the nil slice when there is no row. *)
Lemma scanRows_ok (columns : list string) (rows : list (list driver.Value)) :
  scanRows columns (inr <$> rows) None = inr (allRows columns rows).
Proof.
  destruct rows as [| v rows]; [reflexivity |].
  cbn. by rewrite scanRows_ok_from.
Qed.

(** The first [Scan] that fails ends the loop with its error, whatever
    was built before. *)
Lemma scanRows_scan_error (columns : list string) (rows : list (list driver.Value))
    (err : string) (rest : list (string + list driver.Value)) (products : Products) :
  scanRows columns ((inr <$> rows) ++ inl err :: rest) products = inl err.
Proof.
  revert products. induction rows as [| v rows IH]; intros products; cbn; [reflexivity |].
  apply IH.
Qed.

Lemma items_split (items : list (string + list driver.Value)) :
  (exists rows, items = inr <$> rows) \/
  (exists rows err rest, items = (inr <$> rows) ++ inl err :: rest).
Proof.
  induction items as [| [err | v] items IH].
  - left. by exists [].
  - right. by exists [], err, items.
  - destruct IH as [[rows ->] | (rows & err & rest & ->)].
    + left. by exists (v :: rows).
    + right. by exists (v :: rows), err, rest.
Qed.

(** ** The products handler *)

Section ProductsHandler.

Variable enc : Encoders.
Variable s : Server.
Variable r : http.Request.

Lemma productsHandler_query_error (err : string) :
  sql.QueryContext (db s) query = inl err ->
  serve (productsHandler enc s r)
    = (errorResponse "Failed to query database" err, [EvQuery query]).
Proof.
  intros H. unfold serve, productsHandler. run_handler. rewrite H. reflexivity.
Qed.

Lemma productsHandler_columns_error (rows : sql.Rows) (err : string) :
  sql.QueryContext (db s) query = inr rows ->
  sql.Columns rows = inl err ->
  serve (productsHandler enc s r)
    = (errorResponse "Failed to get columns" err, [EvQuery query]).
Proof.
  intros H Hc. unfold serve, productsHandler. run_handler. rewrite H, Hc.
  reflexivity.
Qed.

Lemma productsHandler_scan_error (rows : sql.Rows) (columns : list string)
    (scanned : list (list driver.Value)) (err : string)
    (rest : list (string + list driver.Value)) :
  sql.QueryContext (db s) query = inr rows ->
  sql.Columns rows = inr columns ->
  sql.items rows = (inr <$> scanned) ++ inl err :: rest ->
  serve (productsHandler enc s r)
    = (errorResponse "Failed to scan row" err, [EvQuery query]).
Proof.
  intros H Hc Hi. unfold serve, productsHandler. run_handler.
  rewrite H, Hc, Hi, scanRows_scan_error. reflexivity.
Qed.

Lemma productsHandler_iteration_error (rows : sql.Rows) (columns : list string)
    (scanned : list (list driver.Value)) (err : string) :
  sql.QueryContext (db s) query = inr rows ->
  sql.Columns rows = inr columns ->
  sql.items rows = inr <$> scanned ->
  sql.Err rows = Some err ->
  serve (productsHandler enc s r)
    = (errorResponse "Error iterating rows" err, [EvQuery query]).
Proof.
  intros H Hc Hi He. unfold serve, productsHandler. run_handler.
  rewrite H, Hc, Hi, scanRows_ok, He. reflexivity.
Qed.

Lemma productsHandler_success (rows : sql.Rows) (columns : list string)
    (scanned : list (list driver.Value)) :
  sql.QueryContext (db s) query = inr rows ->
  sql.Columns rows = inr columns ->
  sql.items rows = inr <$> scanned ->
  sql.Err rows = None ->
  serve (productsHandler enc s r)
    = (encodedResponse (jsonOfProducts enc (allRows columns scanned)),
       [EvQuery query]).
Proof.
  intros H Hc Hi He. unfold serve, productsHandler. run_handler.
  rewrite H, Hc, Hi, scanRows_ok, He.
  unfold encodedResponse, jsonEncode.
  destruct (json.Marshal _); reflexivity.
Qed.

(** The handler answers either with one of the four error responses,
    which carry no row, or with the encoding of every row of the cursor:
    a prefix of the rows is never sent. *)
Lemma productsHandler_all_or_nothing :
  (exists what err,
     serve (productsHandler enc s r) = (errorResponse what err, [EvQuery query])) \/
  (exists rows columns scanned,
     sql.QueryContext (db s) query = inr rows /\
     sql.Columns rows = inr columns /\
     sql.items rows = inr <$> scanned /\
     sql.Err rows = None /\
     serve (productsHandler enc s r)
       = (encodedResponse (jsonOfProducts enc (allRows columns scanned)),
          [EvQuery query])).
Proof.
  destruct (sql.QueryContext (db s) query) as [err | rows] eqn:H.
  { left. eexists _, err. exact (productsHandler_query_error err H). }
  destruct (sql.Columns rows) as [err | columns] eqn:Hc.
  { left. eexists _, err. exact (productsHandler_columns_error rows err H Hc). }
  destruct (items_split (sql.items rows))
    as [[scanned Hi] | (scanned & err & rest & Hi)].
  2:{ left. eexists _, err.
      exact (productsHandler_scan_error rows columns scanned err rest H Hc Hi). }
  destruct (sql.Err rows) as [err |] eqn:He.
  { left. eexists _, err.
    exact (productsHandler_iteration_error rows columns scanned err H Hc Hi He). }
  right. exists rows, columns, scanned.
  repeat (split; [done |]).
  exact (productsHandler_success rows columns scanned H Hc Hi He).
Qed.

End ProductsHandler.

(** C4 (as amended). When the query succeeds and the cursor delivers no
    row, /api/products answers 200 and the body is the text [null]
    followed by a line feed: the slice was never appended to, and
    [encoding/json] writes a nil slice as [null]. *)
Theorem productsHandler_empty_table_is_null (enc : Encoders) (s : Server)
    (r : http.Request) (rows : sql.Rows) (columns : list string) :
  sql.QueryContext (db s) query = inr rows ->
  sql.Columns rows = inr columns ->
  sql.items rows = [] ->
  sql.Err rows = None ->
  serve (productsHandler enc s r)
    = (http.mkResponse 200 jsonHeader ("null" +:+ nl), [EvQuery query]).
Proof.
  intros H Hc Hi He.
  exact (productsHandler_success enc s r rows columns [] H Hc Hi He).
Qed.

Lemma productsHandler_empty_table_is_null_witness :
  sql.QueryContext (db srvEmptyTable) query
    = inr (sql.mkRows (inr productColumns) [] None) /\
  serve (productsHandler sampleEncoders srvEmptyTable reqBare)
    = (http.mkResponse 200 jsonHeader ("null" +:+ nl), [EvQuery query]).
Proof.
  split; [reflexivity |].
  exact (productsHandler_empty_table_is_null sampleEncoders srvEmptyTable reqBare
           (sql.mkRows (inr productColumns) [] None) productColumns
           eq_refl eq_refl eq_refl eq_refl).
Defined.

(** On the empty table the encoders are not consulted. *)
Lemma productsHandler_empty_table_any_encoders (enc : Encoders) :
  serve (productsHandler enc srvEmptyTable reqBare)
    = (http.mkResponse 200 jsonHeader ("null" +:+ nl), [EvQuery query]).
Proof. reflexivity. Qed.

(** C4 as stated fails: on the empty products table the answer is 200
    and the body is not the empty array, with or without the final line
    feed. *)
Lemma productsHandler_empty_table_not_empty_array :
  http.StatusCode (fst (serve (productsHandler sampleEncoders srvEmptyTable reqBare))) = 200 /\
  http.Body (fst (serve (productsHandler sampleEncoders srvEmptyTable reqBare))) <> "[]" /\
  http.Body (fst (serve (productsHandler sampleEncoders srvEmptyTable reqBare)))
    <> "[]" +:+ nl /\
  http.Body (fst (serve (productsHandler sampleEncoders srvEmptyTable reqBare)))
    = "null" +:+ nl.
Proof. repeat split; discriminate. Qed.

(** C5. The value a row mapping holds for a column is the scanned value
    converted as follows: a byte slice becomes the string of the same
    bytes, a time becomes its RFC 3339 text, and a value of any other
    type is stored unchanged.  (For a column name that occurs more than
    once the mapping holds the last occurrence, hence the side
    condition.) *)
Theorem marshalRow_coercion (columns : list string) (values : list driver.Value)
    (i : nat) (col : string) :
  columns !! i = Some col ->
  col ∉ drop (S i) columns ->
  marshalRow columns values !! col =
    Some match nth i values driver.VNil with
         | driver.VBytes b => driver.VString (string_of_list_byte b)
         | driver.VTime t => driver.VString (time.FormatRFC3339 t)
         | v => v
         end.
Proof.
  intros Hi Hlast. unfold marshalRow.
  rewrite (fillProduct_lookup values columns 0 i ∅ col Hi Hlast).
  cbn [Nat.add]. unfold coerce, string_of_byteslice.
  by destruct (nth i values driver.VNil).
Qed.

Lemma marshalRow_coercion_witness :
  marshalRow productColumns sampleRow !! "price" = Some (driver.VString "0.00") /\
  marshalRow productColumns sampleRow !! "created_at"
    = Some (driver.VString "2024-01-15T10:30:00Z") /\
  marshalRow productColumns sampleRow !! "stock_quantity" = Some (driver.VInt64 100).
Proof.
  split; [| split].
  - apply (marshalRow_coercion productColumns sampleRow 3 "price");
      [reflexivity | vm_compute; set_solver].
  - apply (marshalRow_coercion productColumns sampleRow 6 "created_at");
      [reflexivity | vm_compute; set_solver].
  - apply (marshalRow_coercion productColumns sampleRow 4 "stock_quantity");
      [reflexivity | vm_compute; set_solver].
Defined.

(** C6 (as amended). The loop yields one mapping per row, in row order.
    A mapping is a Go map, which keeps no insertion order: its keys are
    exactly the column names (set-wise, a repeated name counted once),
    and the JSON encoding of a row writes the keys without repetition in
    ascending byte order, which is in general not the column order. *)
Theorem marshalRow_keys_sorted (enc : Encoders) (columns : list string)
    (rows : list (list driver.Value)) :
  scanRows columns (inr <$> rows) None = inr (allRows columns rows) /\
  length (marshalRow columns <$> rows) = length rows /\
  forall values : list driver.Value,
    let m := marshalRow columns values in
    objectKeys (jsonOfProduct enc m) = productKeys m /\
    StronglySorted String.le (productKeys m) /\
    NoDup (productKeys m) /\
    forall k : string, k ∈ productKeys m <-> k ∈ columns.
Proof.
  split; [apply scanRows_ok |].
  split; [apply length_fmap |].
  intros values m.
  split; [apply objectKeys_jsonOfProduct |].
  split; [apply productKeys_sorted |].
  split; [apply productKeys_NoDup |].
  intros k. apply elem_of_marshalRow_keys.
Qed.

(** The keys of an encoded row do not depend on the encoders. *)
Lemma sampleRow_keys (enc : Encoders) :
  objectKeys (jsonOfProduct enc (marshalRow productColumns sampleRow))
    = ["category"; "created_at"; "description"; "id"; "name"; "price";
       "stock_quantity"; "updated_at"].
Proof. rewrite objectKeys_jsonOfProduct. by vm_compute. Qed.

(** C6 as stated fails: for a row of the products table the keys of the
    encoded object are in byte order, not in the cursor's column order. *)
Lemma marshalRow_keys_not_in_column_order :
  objectKeys (jsonOfProduct sampleEncoders (marshalRow productColumns sampleRow))
    = ["category"; "created_at"; "description"; "id"; "name"; "price";
       "stock_quantity"; "updated_at"] /\
  objectKeys (jsonOfProduct sampleEncoders (marshalRow productColumns sampleRow))
    <> productColumns.
Proof. rewrite sampleRow_keys. split; [reflexivity | discriminate]. Qed.

(** *** The error bodies *)

Example errorBody_plain_message_valid :
  json.valid (errorBody "Failed to query database"
                "dial tcp 127.0.0.1:5432: connect: connection refused" +:+ nl)
    = true.
Proof. reflexivity. Qed.

Lemma errorBody_no_table_invalid :
  ~ json.Valid (errorBody "Failed to query database" errNoTable +:+ nl).
Proof.
  intros [fuel H]. revert H.
  destruct fuel as [| [| [| fuel]]]; vm_compute; discriminate.
Qed.

(** C7 at a query that fails with a message holding double quotes (the
    missing-table error of lib/pq): the answer is 500 and carries no row,
    but its body pastes the message unescaped between the quotes of the
    error member, so the body is not a JSON text; it is also sent as
    text/plain. *)
Theorem productsHandler_error_body_unescaped (enc : Encoders) :
  let body := "{" +:+ q "error" +:+ ": "
                  +:+ q ("Failed to query database: pq: relation "
                           +:+ q "products" +:+ " does not exist")
                  +:+ "}" +:+ nl in
  serve (productsHandler enc srvNoTable reqBare)
    = (http.mkResponse 500 errorHeader body, [EvQuery query]) /\
  errorHeader !! "Content-Type" = Some ["text/plain; charset=utf-8"] /\
  ~ json.Valid body.
Proof.
  cbv zeta. split; [| split].
  - exact (productsHandler_query_error enc srvNoTable reqBare errNoTable eq_refl).
  - reflexivity.
  - exact errorBody_no_table_invalid.
Qed.

(** * Further properties of the handlers *)

(** ** The identity resolver and the user handler, in general *)

Lemma string_of_byte_nonempty (b : ascii) : string_of_byte b <> EmptyString.
Proof.
  unfold string_of_byte, utf8.EncodeRune. repeat case_match; discriminate.
Qed.

Lemma firstInitial_nonempty (displayName loginName : string) :
  loginName <> EmptyString -> firstInitial displayName loginName <> EmptyString.
Proof.
  intros H. destruct displayName as [| b d]; cbn.
  - destruct loginName as [| b l]; [done | apply string_of_byte_nonempty].
  - apply string_of_byte_nonempty.
Qed.

(** Every way [tailscaleWhois] can end: the writer is left alone, at
    most the one lookup is recorded, and the result is an identity with a
    login name or an error text, never both and never neither. *)
Lemma tailscaleWhois_outcome (s : Server) (r : http.Request) (st : State) :
  exists (u : option WhoIsData.t) (e : option string) (evs : list Event),
    tailscaleWhois s r st = ((u, e), mkState (w st) (trace st ++ evs)) /\
    (evs = [] \/ evs = [EvWhoIs (http.RemoteAddr r)]) /\
    ((exists d, u = Some d /\ e = None /\ WhoIsData.LoginName d <> EmptyString) \/
     (exists msg, u = None /\ e = Some msg /\ msg <> EmptyString)).
Proof.
  unfold tailscaleWhois.
  destruct (String.eqb_spec (http.Get (http.Header_ r) "Tailscale-User-Login")
              EmptyString) as [Hno | Hyes]; cbn [negb].
  2:{ eexists _, _, []. rewrite app_nil_r. destruct st.
      split; [reflexivity |]. split; [by left |]. left. eauto. }
  run_handler.
  destruct (tailscale.WhoIs (client s) (http.RemoteAddr r)) as [err | whois].
  { destruct (tsnetMode s); eexists _, _, _;
      (split; [reflexivity |]); (split; [by right |]); right;
      eexists; (split; [reflexivity |]); (split; [reflexivity |]); discriminate. }
  destruct (tailcfg.IsTagged (apitype.Node whois)).
  { eexists _, _, _. split; [reflexivity |]. split; [by right |]. right.
    eexists. split; [reflexivity |]. split; [reflexivity |]. discriminate. }
  destruct (apitype.UserProfile whois) as [p |].
  2:{ eexists _, _, _. split; [reflexivity |]. split; [by right |]. right.
      eexists. split; [reflexivity |]. split; [reflexivity |]. discriminate. }
  destruct (String.eqb_spec (tailcfg.LoginName p) EmptyString) as [Hl | Hl].
  { eexists _, _, _. split; [reflexivity |]. split; [by right |]. right.
    eexists. split; [reflexivity |]. split; [reflexivity |]. discriminate. }
  eexists _, _, _. split; [reflexivity |]. split; [by right |]. left.
  eexists. split; [reflexivity |]. split; [reflexivity |]. exact Hl.
Qed.

(** X1. Whatever the request and the local client, [tailscaleWhois]
    leaves the response writer untouched and returns exactly one of the
    two: an identity, whose login name is then not empty, or an error
    with a non-empty text. *)
Theorem tailscaleWhois_identity_xor_error (s : Server) (r : http.Request)
    (st : State) :
  w (snd (tailscaleWhois s r st)) = w st /\
  ((exists d, fst (tailscaleWhois s r st) = (Some d, None) /\
              WhoIsData.LoginName d <> EmptyString) \/
   (exists msg, fst (tailscaleWhois s r st) = (None, Some msg) /\
                msg <> EmptyString)).
Proof.
  destruct (tailscaleWhois_outcome s r st) as (u & e & evs & -> & _ & H).
  split; [reflexivity |].
  destruct H as [(d & -> & -> & Hd) | (msg & -> & -> & Hm)]; eauto.
Qed.

(** What [userHandler] sends, in terms of the [UserInfo] it encodes. *)
Lemma userHandler_response (s : Server) (r : http.Request) :
  exists (info : UserInfo.t) (text : string),
    json.Marshal (UserInfo.toJSON info) = Some text /\
    fst (serve (userHandler s r)) = http.mkResponse 200 jsonHeader (text +:+ nl) /\
    (if UserInfo.Connected info
     then UserInfo.LoginName info <> EmptyString /\
          UserInfo.FirstInitial info <> EmptyString /\
          UserInfo.Error info = EmptyString
     else UserInfo.LoginName info = EmptyString /\
          UserInfo.DisplayName info = EmptyString /\
          UserInfo.FirstInitial info = EmptyString /\
          UserInfo.Error info = "Tailscale not available").
Proof.
  unfold serve, userHandler. run_handler.
  match goal with |- context [tailscaleWhois s r ?st0] =>
    destruct (tailscaleWhois_outcome s r st0) as (u & e & evs & -> & _ & H)
  end.
  destruct H as [(d & -> & -> & Hd) | (msg & -> & -> & Hm)]; cbv beta iota.
  - match goal with |- context [UserInfo.toJSON ?i] =>
      destruct (Marshal_UserInfo_total i) as [text Ht]; exists i, text
    end.
    split; [exact Ht |]. split.
    + unfold jsonEncode. rewrite Ht. reflexivity.
    + cbn. split; [exact Hd |]. split; [| reflexivity].
      by apply firstInitial_nonempty.
  - match goal with |- context [UserInfo.toJSON ?i] =>
      destruct (Marshal_UserInfo_total i) as [text Ht]; exists i, text
    end.
    split; [exact Ht |]. split.
    + unfold jsonEncode. rewrite Ht. reflexivity.
    + cbn. repeat split.
Qed.

(** X2. For every request and every state of the collaborators,
    /api/user answers 200 with Content-Type application/json and the
    encoding of a [UserInfo] in one of two shapes: connected with a
    non-empty login name and first initial and no error, or not connected
    with no identity field at all and the error "Tailscale not
    available". *)
Theorem userHandler_two_shapes (s : Server) (r : http.Request) :
  exists (info : UserInfo.t) (text : string),
    json.Marshal (UserInfo.toJSON info) = Some text /\
    fst (serve (userHandler s r)) = http.mkResponse 200 jsonHeader (text +:+ nl) /\
    jsonHeader !! "Content-Type" = Some ["application/json"] /\
    (if UserInfo.Connected info
     then UserInfo.LoginName info <> EmptyString /\
          UserInfo.FirstInitial info <> EmptyString /\
          UserInfo.Error info = EmptyString
     else UserInfo.LoginName info = EmptyString /\
          UserInfo.DisplayName info = EmptyString /\
          UserInfo.FirstInitial info = EmptyString /\
          UserInfo.Error info = "Tailscale not available").
Proof.
  destruct (userHandler_response s r) as (info & text & Ht & Hr & Hi).
  exists info, text. repeat (split; [done |]). exact Hi.
Qed.

(** X3. Without the login header the other headers play no part: two
    requests from the same remote address that both lack
    Tailscale-User-Login get the same answer and cause the same calls,
    whatever else they carry (a Tailscale-User-Name header alone is not
    trusted). *)
Theorem userHandler_headers_ignored_without_login (s : Server)
    (r1 r2 : http.Request) :
  ~ hasIdentityHeader r1 ->
  ~ hasIdentityHeader r2 ->
  http.RemoteAddr r1 = http.RemoteAddr r2 ->
  serve (userHandler s r1) = serve (userHandler s r2).
Proof.
  intros H1 H2 Ha.
  assert (E : forall st, tailscaleWhois s r1 st = tailscaleWhois s r2 st).
  { intros st. unfold tailscaleWhois.
    destruct (String.eqb_spec (http.Get (http.Header_ r1) "Tailscale-User-Login")
                EmptyString) as [_ | Hne]; [| by destruct H1].
    destruct (String.eqb_spec (http.Get (http.Header_ r2) "Tailscale-User-Login")
                EmptyString) as [_ | Hne]; [| by destruct H2].
    cbn [negb]. by rewrite Ha. }
  unfold serve, userHandler. run_handler. by rewrite E.
Qed.

Lemma userHandler_headers_ignored_without_login_witness :
  ~ hasIdentityHeader reqBare /\
  ~ hasIdentityHeader reqNameOnly /\
  serve (userHandler srvEmile reqBare) = serve (userHandler srvEmile reqNameOnly).
Proof.
  assert (H1 : ~ hasIdentityHeader reqBare) by (intros H; apply H; reflexivity).
  assert (H2 : ~ hasIdentityHeader reqNameOnly) by (intros H; apply H; reflexivity).
  split; [exact H1 |]. split; [exact H2 |].
  exact (userHandler_headers_ignored_without_login srvEmile reqBare reqNameOnly
           H1 H2 eq_refl).
Defined.

(** X4. A node that carries a tag is refused before its profile is
    looked at: without the login header, [tailscaleWhois] makes the one
    lookup and fails with "tagged nodes do not have a user identity",
    also when the answer holds a complete user profile, and /api/user
    reports not connected. *)
Theorem tailscaleWhois_tagged_refused (s : Server) (r : http.Request)
    (whois : apitype.WhoIsResponse) (st : State) :
  ~ hasIdentityHeader r ->
  tailscale.WhoIs (client s) (http.RemoteAddr r) = inr whois ->
  tailcfg.IsTagged (apitype.Node whois) = true ->
  tailscaleWhois s r st =
    ((None, Some "tagged nodes do not have a user identity"),
     mkState (w st) (trace st ++ [EvWhoIs (http.RemoteAddr r)])) /\
  serve (userHandler s r) =
    (http.mkResponse 200 jsonHeader (notAvailableText +:+ nl),
     [EvWhoIs (http.RemoteAddr r);
      EvLog "Tailscale lookup warning: tagged nodes do not have a user identity"]).
Proof.
  intros Hno H Ht.
  assert (E : forall st', tailscaleWhois s r st' =
            ((None, Some "tagged nodes do not have a user identity"),
             mkState (w st') (trace st' ++ [EvWhoIs (http.RemoteAddr r)]))).
  { intros st'. unfold tailscaleWhois.
    destruct (String.eqb_spec (http.Get (http.Header_ r) "Tailscale-User-Login")
                EmptyString) as [_ | Hne]; [| by destruct Hno].
    cbn [negb]. run_handler. by rewrite H, Ht. }
  split; [apply E |].
  unfold serve, userHandler. run_handler. rewrite E. reflexivity.
Qed.

Lemma tailscaleWhois_tagged_refused_witness :
  ~ hasIdentityHeader reqBare /\
  fst (serve (userHandler (mkServer dbDown clientTagged true) reqBare))
    = http.mkResponse 200 jsonHeader (notAvailableText +:+ nl).
Proof.
  assert (Hno : ~ hasIdentityHeader reqBare) by (intros H; apply H; reflexivity).
  split; [exact Hno |].
  pose proof (tailscaleWhois_tagged_refused (mkServer dbDown clientTagged true)
                reqBare
                (apitype.mkWhoIsResponse (tailcfg.mkNode ["tag:ci"])
                   (Some (tailcfg.mkUserProfile "ci@example.com" "CI")))
                initState Hno eq_refl eq_refl) as [_ Hs].
  by rewrite Hs.
Defined.

(** X6. When the name the initial is taken from (the display name, or
    the login name when the display name is empty) starts with an ASCII
    byte, or is empty, the first initial is the first character of that
    name. *)
Theorem firstInitial_is_first_character (displayName loginName : string) :
  let name := match displayName with
              | EmptyString => loginName
              | _ => displayName
              end in
  (forall b rest, name = String b rest -> byteval b < 128) ->
  firstInitial displayName loginName = firstCharacter name.
Proof.
  intros name H. subst name.
  destruct displayName as [| b d].
  - destruct loginName as [| b l]; [reflexivity |].
    change (firstInitial (String b l) EmptyString = firstCharacter (String b l)).
    apply firstInitial_ascii. eauto.
  - apply firstInitial_ascii. eauto.
Qed.

Lemma firstInitial_is_first_character_witness :
  firstInitial "Alice Liddell" "alice@example.com" = "A" /\
  firstInitial EmptyString "bob@example.com" = firstCharacter "bob@example.com".
Proof.
  split.
  - apply (firstInitial_is_first_character "Alice Liddell" "alice@example.com").
    intros b rest H. injection H as <- _. vm_compute. reflexivity.
  - apply (firstInitial_is_first_character EmptyString "bob@example.com").
    intros b rest H. injection H as <- _. vm_compute. reflexivity.
Defined.

(** ** The products handler, in general *)

Lemma list_ascii_app (a b : string) :
  list_ascii_of_string (a +:+ b) = list_ascii_of_string a ++ list_ascii_of_string b.
Proof.
  induction a as [| c a IH]; [reflexivity |].
  change (c :: list_ascii_of_string (a +:+ b)
          = c :: (list_ascii_of_string a ++ list_ascii_of_string b)).
  by rewrite IH.
Qed.

Lemma scanned_then_error_inj {A B : Type} (a b : list B) (e e' : A)
    (r r' : list (A + B)) :
  (inr <$> a) ++ inl e :: r = (inr <$> b) ++ inl e' :: r' -> e = e'.
Proof.
  revert b. induction a as [| x a IH]; intros [| y b] H; simplify_eq/=; eauto.
Qed.

Lemma scanned_all_not_error {A B : Type} (a b : list B) (e : A)
    (r : list (A + B)) :
  inr <$> a = (inr <$> b) ++ inl e :: r -> False.
Proof.
  revert b. induction a as [| x a IH]; intros [| y b] H; simplify_eq/=; eauto.
Qed.

(** At most one stage fails in a run, with one error. *)
Lemma StageFails_unique (s : Server) (stage stage' err err' : string) :
  StageFails s stage err -> StageFails s stage' err' ->
  stage = stage' /\ err = err'.
Proof.
  intros H1 H2. destruct H1, H2;
    repeat match goal with
           | Ha : ?x = _, Hb : ?x = _ |- _ => rewrite Ha in Hb; simplify_eq
           end;
    try done.
  - match goal with
    | H : _ ++ _ = _ ++ _ |- _ => by apply scanned_then_error_inj in H as ->
    end.
  - match goal with
    | H : _ ++ _ = _ <$> _ |- _ => symmetry in H; by apply scanned_all_not_error in H
    end.
  - match goal with
    | H : _ <$> _ = _ ++ _ |- _ => by apply scanned_all_not_error in H
    end.
Qed.

(** A failing stage gives the 500 answer with the label of that stage
    and the error of the failing call. *)
Lemma productsHandler_stage_response (enc : Encoders) (s : Server)
    (r : http.Request) (stage err : string) :
  StageFails s stage err ->
  serve (productsHandler enc s r) = (errorResponse stage err, [EvQuery query]).
Proof.
  intros [e H | rows e H Hc | rows columns scanned e rest H Hc Hi
          | rows columns scanned e H Hc Hi He].
  - exact (productsHandler_query_error enc s r e H).
  - exact (productsHandler_columns_error enc s r rows e H Hc).
  - exact (productsHandler_scan_error enc s r rows columns scanned e rest H Hc Hi).
  - exact (productsHandler_iteration_error enc s r rows columns scanned e H Hc Hi He).
Qed.

Lemma StageFails_stage (s : Server) (stage err : string) :
  StageFails s stage err -> stage ∈ stages.
Proof. intros []; unfold stages; set_solver. Qed.

(** Whether a stage fails is settled by what the database returns. *)
Lemma StageFails_or_success (s : Server) :
  (exists stage err, StageFails s stage err) \/
  (exists rows columns scanned,
     sql.QueryContext (db s) query = inr rows /\
     sql.Columns rows = inr columns /\
     sql.items rows = inr <$> scanned /\
     sql.Err rows = None).
Proof.
  destruct (sql.QueryContext (db s) query) as [err | rows] eqn:H.
  { left. exists "Failed to query database", err. by constructor. }
  destruct (sql.Columns rows) as [err | columns] eqn:Hc.
  { left. exists "Failed to get columns", err. by econstructor. }
  destruct (items_split (sql.items rows))
    as [[scanned Hi] | (scanned & err & rest & Hi)].
  2:{ left. exists "Failed to scan row", err. by econstructor. }
  destruct (sql.Err rows) as [err |] eqn:He.
  { left. exists "Error iterating rows", err. by econstructor. }
  right. by exists rows, columns, scanned.
Qed.

(** X7. /api/products has two kinds of answer and nothing in between,
    and which one is settled by what the database returns.  Either a
    stage fails (the query, the column names, the first failing row
    scan, the iteration); it is then the only failure of the run, and
    the answer is 500 with the label of that stage and the error of the
    failing call as its body, no row, sent as text/plain with nosniff.
    Or no stage fails: then the answer is 200 and what is encoded is the
    mapping of every row the cursor delivered, in order. *)
Theorem productsHandler_error_or_complete (enc : Encoders) (s : Server)
    (r : http.Request) :
  (exists stage err,
     StageFails s stage err /\
     (forall stage' err', StageFails s stage' err' -> stage' = stage /\ err' = err) /\
     fst (serve (productsHandler enc s r))
       = http.mkResponse 500 errorHeader (errorBody stage err +:+ nl) /\
     errorHeader !! "Content-Type" = Some ["text/plain; charset=utf-8"] /\
     errorHeader !! "X-Content-Type-Options" = Some ["nosniff"]) \/
  ((forall stage err, ~ StageFails s stage err) /\
   exists rows columns scanned,
     sql.QueryContext (db s) query = inr rows /\
     sql.Columns rows = inr columns /\
     sql.items rows = inr <$> scanned /\
     sql.Err rows = None /\
     http.StatusCode (fst (serve (productsHandler enc s r))) = 200 /\
     http.RespHeader (fst (serve (productsHandler enc s r))) = jsonHeader /\
     http.Body (fst (serve (productsHandler enc s r)))
       = match json.Marshal
                 (jsonOfProducts enc
                    (match scanned with
                     | [] => None
                     | _ :: _ => Some (marshalRow columns <$> scanned)
                     end)) with
         | Some text => text +:+ nl
         | None => EmptyString
         end).
Proof.
  destruct (StageFails_or_success s)
    as [(stage & err & Hf) | (rows & columns & scanned & H & Hc & Hi & He)].
  - left. exists stage, err. split; [exact Hf |]. split.
    { intros stage' err' Hf'. exact (StageFails_unique s _ _ _ _ Hf' Hf). }
    rewrite (productsHandler_stage_response enc s r stage err Hf).
    by repeat split.
  - right. split.
    { intros stage err Hf.
      destruct Hf;
        repeat match goal with
               | Ha : ?x = _, Hb : ?x = _ |- _ => rewrite Ha in Hb; simplify_eq
               end.
      match goal with
      | H : _ <$> _ = _ ++ _ |- _ => by apply scanned_all_not_error in H
      end. }
    exists rows, columns, scanned.
    repeat (split; [done |]).
    rewrite (productsHandler_success enc s r rows columns scanned H Hc Hi He).
    unfold encodedResponse, allRows. cbn [fst].
    destruct (json.Marshal _); by repeat split.
Qed.

(** The error texts of two different stages are never equal, whatever
    the underlying messages. *)
Lemma errorBody_differs_by_stage (stage1 stage2 err1 err2 : string) :
  stage1 ∈ stages ->
  stage2 ∈ stages ->
  stage1 <> stage2 ->
  errorBody stage1 err1 <> errorBody stage2 err2.
Proof.
  unfold stages. intros H1 H2 Hne E.
  repeat (apply elem_of_cons in H1 as [-> | H1]);
    [.. | by apply elem_of_nil in H1];
    (repeat (apply elem_of_cons in H2 as [-> | H2]);
       [.. | by apply elem_of_nil in H2]);
    first [ by destruct Hne | vm_compute in E; congruence ].
Qed.

(** X8. The 500 body of /api/products tells which stage failed: two
    runs that fail at different stages never send the same body,
    whatever the errors of the failing calls are. *)
Theorem productsHandler_error_body_names_stage (enc : Encoders)
    (s1 s2 : Server) (r1 r2 : http.Request) (stage1 stage2 err1 err2 : string) :
  StageFails s1 stage1 err1 ->
  StageFails s2 stage2 err2 ->
  stage1 <> stage2 ->
  http.Body (fst (serve (productsHandler enc s1 r1)))
    <> http.Body (fst (serve (productsHandler enc s2 r2))).
Proof.
  intros H1 H2 Hne.
  rewrite (productsHandler_stage_response enc s1 r1 stage1 err1 H1).
  rewrite (productsHandler_stage_response enc s2 r2 stage2 err2 H2).
  unfold errorResponse. cbn [fst http.Body]. intros E.
  apply (errorBody_differs_by_stage stage1 stage2 err1 err2
           (StageFails_stage s1 _ _ H1) (StageFails_stage s2 _ _ H2) Hne).
  apply (f_equal list_ascii_of_string) in E.
  rewrite !list_ascii_app in E. apply app_inv_tail in E.
  rewrite <- (string_of_list_ascii_of_string (errorBody stage1 err1)).
  rewrite <- (string_of_list_ascii_of_string (errorBody stage2 err2)).
  by rewrite E.
Qed.

Lemma productsHandler_error_body_names_stage_witness :
  StageFails srvNoTable "Failed to query database" errNoTable /\
  StageFails srvCursorLost "Error iterating rows" "driver: bad connection" /\
  http.Body (fst (serve (productsHandler sampleEncoders srvNoTable reqBare)))
    <> http.Body (fst (serve (productsHandler sampleEncoders srvCursorLost reqBare))).
Proof.
  assert (H1 : StageFails srvNoTable "Failed to query database" errNoTable).
  { by constructor. }
  assert (H2 : StageFails srvCursorLost "Error iterating rows" "driver: bad connection").
  { by apply (IterationFails srvCursorLost
                (sql.mkRows (inr productColumns) [inr sampleRow]
                   (Some "driver: bad connection"))
                productColumns [sampleRow]). }
  split; [exact H1 |]. split; [exact H2 |].
  apply (productsHandler_error_body_names_stage sampleEncoders srvNoTable
           srvCursorLost reqBare reqBare _ _ _ _ H1 H2).
  discriminate.
Defined.


(** ** The row mapping, in general *)

Lemma fillProduct_values (values : list driver.Value) (columns : list string) :
  forall (i : nat) (product : gmap string driver.Value) (k : string)
         (v : driver.Value),
    fillProduct i columns values product !! k = Some v ->
    product !! k = Some v \/ exists j, v = coerce (nth j values driver.VNil).
Proof.
  induction columns as [| c columns IH]; intros i product k v H; [by left |].
  cbn in H. apply IH in H as [H | H]; [| by right].
  destruct (decide (c = k)) as [-> | Hne].
  - rewrite lookup_insert_eq in H. injection H as <-. right. eauto.
  - rewrite lookup_insert_ne in H by done. by left.
Qed.

(** X9. A row mapping has an entry exactly for the names in the column
    list, one per distinct name; no entry holds a byte slice or a time
    any more, so every value is written as null, a number, a boolean or
    a string. *)
Theorem marshalRow_entries (columns : list string) (values : list driver.Value) :
  (forall k, is_Some (marshalRow columns values !! k) <-> k ∈ columns) /\
  (NoDup columns -> size (marshalRow columns values) = length columns) /\
  (forall k v, marshalRow columns values !! k = Some v ->
     match v with
     | driver.VBytes _ | driver.VTime _ => False
     | _ => True
     end).
Proof.
  split; [| split].
  - intros k. rewrite <- elem_of_dom. unfold marshalRow.
    rewrite dom_fillProduct, dom_empty_L, elem_of_union, elem_of_list_to_set.
    set_solver.
  - intros Hnd. rewrite <- size_dom. unfold marshalRow.
    rewrite dom_fillProduct, dom_empty_L, (right_id_L ∅ (∪)).
    by apply size_list_to_set.
  - intros k v H. unfold marshalRow in H.
    apply fillProduct_values in H as [H | [j ->]]; [by rewrite lookup_empty in H |].
    apply coerce_range.
Qed.

Lemma marshalRow_entries_witness :
  NoDup productColumns /\
  size (marshalRow productColumns sampleRow) = 8%nat /\
  marshalRow productColumns sampleRow !! "color" = None.
Proof.
  assert (Hnd : NoDup productColumns) by (apply (bool_decide_unpack _); by vm_compute).
  destruct (marshalRow_entries productColumns sampleRow) as (Hk & Hs & _).
  split; [exact Hnd |]. split; [exact (Hs Hnd) |].
  destruct (marshalRow productColumns sampleRow !! "color") eqn:E; [| reflexivity].
  exfalso. assert (Hin : "color" ∈ productColumns) by (apply Hk; by rewrite E).
  revert Hin. change (~ ("color" ∈ productColumns)). apply (bool_decide_unpack _). by vm_compute.
Defined.

(** X10. A [TIMESTAMP] column comes out as text of the RFC 3339
    grammar: for a time whose year has four digits and whose zone offset
    is below a day, the entry of the column is a string and that string
    is a [date-time] (date, [T], time of day, [Z] or a numeric offset). *)
Theorem marshalRow_time_is_RFC3339 (columns : list string)
    (values : list driver.Value) (i : nat) (col : string) (t : time.Time) :
  columns !! i = Some col ->
  col ∉ drop (S i) columns ->
  nth i values driver.VNil = driver.VTime t ->
  0 <= civilYear t <= 9999 ->
  -86400 < time.offset t < 86400 ->
  exists text,
    marshalRow columns values !! col = Some (driver.VString text) /\
    isRFC3339 text = true.
Proof.
  intros Hi Hlast Hv Hy Ho. exists (time.FormatRFC3339 t). split.
  - unfold marshalRow.
    rewrite (fillProduct_lookup values columns 0 i ∅ col Hi Hlast).
    cbn [Nat.add]. by rewrite Hv.
  - by apply FormatRFC3339_shape.
Qed.

Lemma marshalRow_time_is_RFC3339_witness :
  exists text,
    marshalRow productColumns sampleRow !! "updated_at" = Some (driver.VString text) /\
    isRFC3339 text = true.
Proof.
  apply (marshalRow_time_is_RFC3339 productColumns sampleRow 7 "updated_at"
           (time.mkTime 1705314600 0 0)).
  - reflexivity.
  - vm_compute. set_solver.
  - reflexivity.
  - vm_compute. split; discriminate.
  - vm_compute. split; reflexivity.
Defined.

(** ** Encoding failures *)

Lemma sequence_None {A} (l : list (option A)) :
  None ∈ l -> json.sequence l = None.
Proof.
  induction l as [| [x |] l IH]; intros H.
  - by apply elem_of_nil in H.
  - apply elem_of_cons in H as [H | H]; [discriminate |].
    cbn. by rewrite (IH H).
  - reflexivity.
Qed.

Lemma Marshal_object_None (fields : list (string * json.JSON)) (k : string)
    (j : json.JSON) :
  (k, j) ∈ fields -> json.Marshal j = None ->
  json.Marshal (json.JObject fields) = None.
Proof.
  intros Hin Hj. cbn [json.Marshal].
  rewrite sequence_None; [reflexivity |].
  rewrite map_fmap. apply list_elem_of_fmap. exists (k, j).
  split; [| exact Hin]. cbn. by rewrite Hj.
Qed.

Lemma Marshal_array_None (elems : list json.JSON) (j : json.JSON) :
  j ∈ elems -> json.Marshal j = None ->
  json.Marshal (json.JArray elems) = None.
Proof.
  intros Hin Hj. cbn [json.Marshal].
  rewrite sequence_None; [reflexivity |].
  rewrite map_fmap. apply list_elem_of_fmap. exists j. by rewrite Hj.
Qed.

Lemma elem_of_sortedEntries (m : gmap string driver.Value) (k : string)
    (v : driver.Value) :
  (k, v) ∈ sortedEntries m <-> m !! k = Some v.
Proof.
  unfold sortedEntries. rewrite merge_sort_Permutation.
  apply elem_of_map_to_list.
Qed.

(** X11. The error of [Encode] is dropped.  When everything up to the
    encoding succeeds but some row holds, in a column, a float that
    [encoding/json] cannot write (NaN or an infinity), nothing is
    written at all: the answer is 200 with Content-Type application/json
    and an empty body, not a 500 and not the rows that could be
    written. *)
Theorem productsHandler_unencodable_float (enc : Encoders) (s : Server)
    (r : http.Request) (rows : sql.Rows) (columns : list string)
    (scanned : list (list driver.Value)) (values : list driver.Value)
    (i : nat) (col : string) (bits : Z) :
  sql.QueryContext (db s) query = inr rows ->
  sql.Columns rows = inr columns ->
  sql.items rows = inr <$> scanned ->
  sql.Err rows = None ->
  values ∈ scanned ->
  columns !! i = Some col ->
  col ∉ drop (S i) columns ->
  nth i values driver.VNil = driver.VFloat64 bits ->
  formatFloat64 enc bits = None ->
  serve (productsHandler enc s r)
    = (http.mkResponse 200 jsonHeader EmptyString, [EvQuery query]).
Proof.
  intros H Hc Hi He Hin Hcol Hlast Hv Hf.
  rewrite (productsHandler_success enc s r rows columns scanned H Hc Hi He).
  unfold encodedResponse.
  assert (E : json.Marshal (jsonOfProducts enc (allRows columns scanned)) = None).
  { destruct scanned as [| v0 scanned]; [by apply elem_of_nil in Hin |].
    cbn [allRows jsonOfProducts].
    apply (Marshal_array_None _ (jsonOfProduct enc (marshalRow columns values))).
    { rewrite map_fmap. apply list_elem_of_fmap. exists (marshalRow columns values).
      split; [reflexivity |]. apply list_elem_of_fmap. by exists values. }
    unfold jsonOfProduct.
    apply (Marshal_object_None _ col (json.JRaw None)); [| reflexivity].
    rewrite map_fmap. apply list_elem_of_fmap.
    exists (col, driver.VFloat64 bits). split; [cbn; by rewrite Hf |].
    apply elem_of_sortedEntries. unfold marshalRow.
    rewrite (fillProduct_lookup values columns 0 i ∅ col Hcol Hlast).
    cbn [Nat.add]. by rewrite Hv. }
  by rewrite E.
Qed.

Lemma productsHandler_unencodable_float_witness :
  serve (productsHandler sampleEncoders srvNaN reqBare)
    = (http.mkResponse 200 jsonHeader EmptyString, [EvQuery query]).
Proof.
  apply (productsHandler_unencodable_float sampleEncoders srvNaN reqBare
           (sql.mkRows (inr ["id"; "score"])
              [inr [driver.VInt64 1; driver.VNil];
               inr [driver.VInt64 2; driver.VFloat64 nanBits]] None)
           ["id"; "score"]
           [[driver.VInt64 1; driver.VNil]; [driver.VInt64 2; driver.VFloat64 nanBits]]
           [driver.VInt64 2; driver.VFloat64 nanBits] 1 "score" nanBits);
    try reflexivity.
  - set_solver.
  - vm_compute. set_solver.
Defined.

(** ** The test configuration *)

(** X12. [getEnvOrDefault] treats a variable that is set to the empty
    string like one that is not set, returns the variable's value
    whenever that is not empty, and so never returns the empty string
    for a non-empty default: every field of [getTestConfig] is non-empty
    in every environment. *)
Theorem getEnvOrDefault_never_empty (env : gmap string string)
    (key defaultValue : string) :
  getEnvOrDefault (<[key := EmptyString]> env) key defaultValue = defaultValue /\
  getEnvOrDefault (delete key env) key defaultValue = defaultValue /\
  (forall value, value <> EmptyString ->
     getEnvOrDefault (<[key := value]> env) key defaultValue = value) /\
  (defaultValue <> EmptyString ->
     getEnvOrDefault env key defaultValue <> EmptyString) /\
  (let c := getTestConfig env in
   APIBaseURL c <> EmptyString /\ DBHost c <> EmptyString /\
   DBPort c <> EmptyString /\ DBUser c <> EmptyString /\
   DBPassword c <> EmptyString /\ DBName c <> EmptyString /\
   DBSSLMode c <> EmptyString).
Proof.
  assert (N : forall k d, d <> EmptyString ->
                getEnvOrDefault env k d <> EmptyString).
  { intros k d Hd. unfold getEnvOrDefault.
    destruct (String.eqb_spec (Getenv env k) EmptyString); cbn [negb]; done. }
  split; [| split; [| split; [| split]]].
  - unfold getEnvOrDefault, Getenv. by rewrite lookup_insert_eq.
  - unfold getEnvOrDefault, Getenv. by rewrite lookup_delete_eq.
  - intros value Hv. unfold getEnvOrDefault, Getenv.
    rewrite lookup_insert_eq. cbn.
    by rewrite (eqb_empty_false _ Hv).
  - apply N.
  - cbn. repeat split; apply N; discriminate.
Qed.

(** ** Bodies that are JSON texts *)

Lemma literal_body_nil : literal_body [].
Proof. intros r. reflexivity. Qed.

Lemma literal_body_app (l1 l2 : list ascii) :
  literal_body l1 -> literal_body l2 -> literal_body (l1 ++ l2).
Proof. intros H1 H2 r. by rewrite <- app_assoc, H1, H2. Qed.

Lemma literal_body_rawSafe_byte (c : ascii) :
  rawSafeByte c = true -> literal_body [c].
Proof.
  unfold rawSafeByte. intros H r.
  apply andb_prop in H as [H H92]. apply andb_prop in H as [H32 H34].
  cbn [app json.scan_string].
  destruct (byteval c =? 34); [discriminate |].
  destruct (byteval c =? 92); [discriminate |].
  destruct (byteval c <? 32) eqn:E; [lia | reflexivity].
Qed.

Lemma literal_body_rawSafe (s : string) :
  rawSafe s = true -> literal_body (list_ascii_of_string s).
Proof.
  unfold rawSafe. induction s as [| c s IH]; cbn [list_ascii_of_string forallb].
  - intros _. apply literal_body_nil.
  - intros H. apply andb_prop in H as [Hc Hs].
    apply (literal_body_app [c]); [by apply literal_body_rawSafe_byte | by apply IH].
Qed.

(** After a piece of literal body and the closing quote, the scan of a
    string is over. *)
Lemma scan_string_closes (l r : list ascii) :
  literal_body l -> json.scan_string (l ++ dquote :: r) = Some r.
Proof. intros H. by rewrite H. Qed.

Lemma list_ascii_q (s : string) :
  list_ascii_of_string (q s) = dquote :: list_ascii_of_string s ++ [dquote].
Proof. unfold q. cbn [list_ascii_of_string]. by rewrite list_ascii_app. Qed.

(** The steps of the recogniser on the texts the handlers write. *)

Lemma scan_value_open_object (fuel : nat) (r : list ascii) :
  json.scan_value (S fuel) ("{"%char :: dquote :: r)
    = json.scan_members fuel (dquote :: r).
Proof. reflexivity. Qed.

Lemma scan_value_space (fuel : nat) (r : list ascii) :
  json.scan_value (S fuel) (" "%char :: r) = json.scan_value (S fuel) r.
Proof. reflexivity. Qed.

Lemma scan_value_string (fuel : nat) (l r : list ascii) :
  literal_body l ->
  json.scan_value (S fuel) (dquote :: l ++ dquote :: r) = Some r.
Proof.
  intros H. transitivity (json.scan_string (l ++ dquote :: r)); [reflexivity |].
  by apply scan_string_closes.
Qed.

Lemma scan_members_key (fuel : nat) (key rest : list ascii) :
  literal_body key ->
  json.scan_members (S fuel) (dquote :: key ++ dquote :: ":"%char :: rest)
    = match json.scan_value fuel rest with
      | None => None
      | Some r3 =>
        match json.skipws r3 with
        | c3 :: r4 =>
          if byteval c3 =? 44 then json.scan_members fuel r4
          else if byteval c3 =? 125 then Some r4
          else None
        | [] => None
        end
      end.
Proof.
  intros H.
  transitivity
    (match json.scan_string (key ++ dquote :: ":"%char :: rest) with
     | None => None
     | Some r1 =>
       match json.skipws r1 with
       | c1 :: r2 =>
         if byteval c1 =? 58 then
           match json.scan_value fuel r2 with
           | None => None
           | Some r3 =>
             match json.skipws r3 with
             | c3 :: r4 =>
               if byteval c3 =? 44 then json.scan_members fuel r4
               else if byteval c3 =? 125 then Some r4
               else None
             | [] => None
             end
           end
         else None
       | [] => None
       end
     end); [reflexivity |].
  rewrite (scan_string_closes _ _ H). reflexivity.
Qed.

(** X13. When neither the stage text nor the underlying message holds a
    double quote, a backslash or a control character, the error body of
    /api/products is a JSON text. *)
Theorem errorBody_valid_for_plain_message (what err : string) :
  rawSafe what = true ->
  rawSafe err = true ->
  json.Valid (errorBody what err +:+ nl).
Proof.
  intros Hw He. exists 3%nat. unfold json.accepts, errorBody.
  assert (L : literal_body (list_ascii_of_string (what +:+ ": " +:+ err))).
  { rewrite !list_ascii_app.
    apply literal_body_app; [by apply literal_body_rawSafe |].
    apply literal_body_app; by apply literal_body_rawSafe. }
  assert (K : literal_body (list_ascii_of_string "error"))
    by (by apply literal_body_rawSafe).
  rewrite !list_ascii_app, !list_ascii_q.
  revert L K.
  generalize (list_ascii_of_string (what +:+ ": " +:+ err))
             (list_ascii_of_string "error").
  intros body key L K.
  cbn [list_ascii_of_string app nl str1]. rewrite <- !app_assoc. cbn [app].
  rewrite scan_value_open_object, (scan_members_key _ _ _ K).
  rewrite scan_value_space. rewrite <- ?app_assoc. cbn [app].
  rewrite (scan_value_string _ _ _ L).
  reflexivity.
Qed.

Lemma errorBody_valid_for_plain_message_witness :
  json.Valid (errorBody "Failed to query database"
                "dial tcp 127.0.0.1:5432: connect: connection refused" +:+ nl).
Proof.
  apply errorBody_valid_for_plain_message; reflexivity.
Defined.

(** *** What [appendString] writes is the inside of a string literal *)

Lemma literal_body_ascii_piece (c : ascii) :
  byteval c < 128 ->
  literal_body
    (list_ascii_of_string
       (if json.htmlSafe (byteval c) then str1 c else json.escapeByte (byteval c))).
Proof.
  intros H.
  destruct c as [[] [] [] [] [] [] [] []];
    first [ vm_compute in H; discriminate | intros r; reflexivity ].
Qed.

Lemma literal_body_high (l : list ascii) :
  Forall (fun x => 128 <= byteval x) l -> literal_body l.
Proof.
  induction 1 as [| c l Hc _ IH]; [apply literal_body_nil |].
  apply (literal_body_app [c]); [| exact IH].
  apply literal_body_rawSafe_byte. unfold rawSafeByte.
  destruct (Z.leb_spec 32 (byteval c)); [| lia].
  destruct (Z.eqb_spec (byteval c) 34); [lia |].
  destruct (Z.eqb_spec (byteval c) 92); [lia | reflexivity].
Qed.

Lemma list_ascii_substring (n : nat) (s : string) :
  list_ascii_of_string (String.substring 0 n s) = take n (list_ascii_of_string s).
Proof.
  revert s. induction n as [| n IH]; intros [| c s]; try reflexivity.
  cbn. by rewrite IH.
Qed.

Lemma first_range (b : Z) (sz : nat) (lo hi : Z) :
  utf8.first b = Some (sz, (lo, hi)) -> 128 <= lo.
Proof.
  unfold utf8.first. repeat case_match; intros [= <- <- <-]; lia.
Qed.

(** The bytes of the rune [DecodeRuneInString] finds at the head of a
    string that starts with a byte of [128] or more are all of [128] or
    more. *)
Lemma decode_prefix_high (c : ascii) (s : string) :
  128 <= byteval c ->
  Forall (fun x => 128 <= byteval x)
    (take (snd (utf8.DecodeRuneInString (String c s)))
       (list_ascii_of_string (String c s))).
Proof.
  intros Hc. unfold utf8.DecodeRuneInString, to_bytes.
  cbn [list_ascii_of_string map].
  destruct (Z.ltb_spec (byteval c) 128) as [? | _]; [lia |].
  assert (One : Forall (fun x => 128 <= byteval x)
                  (take 1 (c :: list_ascii_of_string s))).
  { cbn. rewrite take_0. by constructor. }
  destruct (utf8.first (byteval c)) as [[sz [lo hi]] |] eqn:F; [| exact One].
  apply first_range in F.
  destruct s as [| c1 s]; [exact One |]. cbn [list_ascii_of_string map].
  destruct (Z.ltb_spec (byteval c1) lo); [exact One |].
  destruct (Z.ltb_spec hi (byteval c1)); [exact One |]. cbn [orb].
  destruct (sz <=? 2)%nat.
  { cbn. rewrite take_0. repeat constructor; lia. }
  destruct s as [| c2 s]; [exact One |]. cbn [list_ascii_of_string map].
  unfold utf8.cont.
  destruct (Z.leb_spec 128 (byteval c2)); [| exact One].
  destruct (Z.leb_spec (byteval c2) 191); [| exact One]. cbn [andb negb].
  destruct (sz <=? 3)%nat.
  { cbn. rewrite take_0. repeat constructor; lia. }
  destruct s as [| c3 s]; [exact One |]. cbn [list_ascii_of_string map].
  destruct (Z.leb_spec 128 (byteval c3)); [| exact One].
  destruct (Z.leb_spec (byteval c3) 191); [| exact One]. cbn [andb negb].
  cbn. rewrite take_0. repeat constructor; lia.
Qed.

Lemma escape_literal_body (s : string) :
  forall skip, literal_body (list_ascii_of_string (json.escape skip s)).
Proof.
  induction s as [| c s IH]; intros skip; [destruct skip; apply literal_body_nil |].
  destruct skip as [| k]; [| apply IH].
  cbn [json.escape]. cbv zeta.
  destruct (Z.ltb_spec (byteval c) 128) as [Hlt | Hge].
  { rewrite list_ascii_app.
    apply literal_body_app; [by apply literal_body_ascii_piece | apply IH]. }
  pose proof (decode_prefix_high c s Hge) as Hp.
  destruct (utf8.DecodeRuneInString (String c s)) as [rn size].
  cbn [snd] in Hp.
  destruct ((rn =? utf8.RuneError) && (size =? 1)%nat).
  { rewrite list_ascii_app. apply literal_body_app; [| apply IH].
    intros r. reflexivity. }
  destruct (Z.eqb_spec rn 8232) as [-> | _].
  { cbn [orb]. rewrite list_ascii_app. apply literal_body_app; [| apply IH].
    intros r. reflexivity. }
  destruct (Z.eqb_spec rn 8233) as [-> | _].
  { cbn [orb]. rewrite list_ascii_app. apply literal_body_app; [| apply IH].
    intros r. reflexivity. }
  cbn [orb]. rewrite list_ascii_app, list_ascii_substring.
  apply literal_body_app; [by apply literal_body_high | apply IH].
Qed.

(** Every string literal the encoder writes is read back as one string
    by the recogniser, whatever bytes the string holds. *)
Lemma scan_value_encodeString (fuel : nat) (s : string) (r : list ascii) :
  json.scan_value (S fuel) (list_ascii_of_string (json.encodeString s) ++ r)
    = Some r.
Proof.
  unfold json.encodeString. rewrite list_ascii_q. cbn [app].
  rewrite <- app_assoc. cbn [app].
  apply scan_value_string, escape_literal_body.
Qed.

(** *** Decimal digits *)

Lemma is_digit_mkbyte (k : Z) :
  0 <= k < 10 -> json.is_digit (mkbyte (48 + k)) = true.
Proof.
  intros H.
  assert (E : k = 0 \/ k = 1 \/ k = 2 \/ k = 3 \/ k = 4 \/ k = 5 \/ k = 6 \/ k = 7
              \/ k = 8 \/ k = 9) by lia.
  repeat (destruct E as [-> | E]; [reflexivity |]). by subst.
Qed.

Lemma mkbyte_zero (k : Z) :
  0 <= k < 10 -> byteval (mkbyte (48 + k)) = 48 -> k = 0.
Proof.
  intros H.
  assert (E : k = 0 \/ k = 1 \/ k = 2 \/ k = 3 \/ k = 4 \/ k = 5 \/ k = 6 \/ k = 7
              \/ k = 8 \/ k = 9) by lia.
  repeat (destruct E as [-> | E]; [vm_compute; intros; congruence |]).
  subst. vm_compute. congruence.
Qed.

(** With enough fuel, [digits_aux] puts before [acc] a non-empty run of
    digits that starts with [0] only for the number zero. *)
Lemma digits_aux_spec (fuel : nat) :
  forall (u : Z) (acc : string),
    (0 < fuel)%nat ->
    0 <= u < 2 ^ Z.of_nat fuel ->
    exists d ds,
      list_ascii_of_string (time.digits_aux fuel u acc)
        = d :: ds ++ list_ascii_of_string acc /\
      json.is_digit d = true /\
      Forall (fun x => json.is_digit x = true) ds /\
      (byteval d = 48 -> u = 0 /\ ds = []).
Proof.
  induction fuel as [| fuel IH]; intros u acc Hf Hu; [lia |].
  cbn [time.digits_aux].
  assert (Hm : 0 <= u mod 10 < 10) by (apply Z.mod_pos_bound; lia).
  destruct (Z.eqb_spec (u / 10) 0) as [Hq | Hq].
  - exists (mkbyte (48 + u mod 10)), []. split; [reflexivity |].
    split; [by apply is_digit_mkbyte |]. split; [constructor |].
    intros H0. apply mkbyte_zero in H0; [| exact Hm].
    split; [| reflexivity]. rewrite (Z.div_mod u 10) by lia. lia.
  - assert (Hq' : 0 <= u / 10 < 2 ^ Z.of_nat fuel).
    { split; [apply Z.div_pos; lia |].
      rewrite Nat2Z.inj_succ, Z.pow_succ_r in Hu by lia.
      apply Z.div_lt_upper_bound; lia. }
    assert (Hf' : (0 < fuel)%nat).
    { destruct fuel; [| lia]. change (2 ^ Z.of_nat 0) with 1 in Hq'. lia. }
    destruct (IH (u / 10) (String (mkbyte (48 + u mod 10)) acc) Hf' Hq')
      as (d & ds & E & Hd & Hds & Hz).
    exists d, (ds ++ [mkbyte (48 + u mod 10)]).
    split.
    { rewrite E. cbn [list_ascii_of_string]. by rewrite <- app_assoc. }
    split; [exact Hd |].
    split.
    { apply Forall_app. split; [exact Hds |]. constructor; [| constructor].
      by apply is_digit_mkbyte. }
    intros H0. destruct (Hz H0) as [Hu0 _]. lia.
Qed.

Lemma digits_spec (u : Z) :
  0 <= u ->
  exists d ds,
    list_ascii_of_string (time.digits u) = d :: ds /\
    json.is_digit d = true /\
    Forall (fun x => json.is_digit x = true) ds /\
    (byteval d = 48 -> ds = []).
Proof.
  intros Hu. unfold time.digits.
  destruct (digits_aux_spec (S (Z.to_nat (Z.log2 u))) u EmptyString)
    as (d & ds & E & Hd & Hds & Hz).
  - lia.
  - split; [exact Hu |].
    rewrite Nat2Z.inj_succ, Z2Nat.id by apply Z.log2_nonneg.
    destruct (Z.eq_dec u 0) as [-> | Hne]; [reflexivity |].
    apply Z.log2_spec. lia.
  - exists d, ds. cbn [list_ascii_of_string] in E. rewrite app_nil_r in E.
    split; [exact E |]. split; [exact Hd |]. split; [exact Hds |].
    intros H0. by destruct (Hz H0).
Qed.

(** *** Numbers *)

Lemma skip_digits_run (ds : list ascii) (c : ascii) (r : list ascii) :
  Forall (fun x => json.is_digit x = true) ds ->
  json.is_digit c = false ->
  json.skip_digits (ds ++ c :: r) = c :: r.
Proof.
  intros Hds Hc. induction Hds as [| d ds Hd _ IH]; cbn [app json.skip_digits].
  - by rewrite Hc.
  - by rewrite Hd.
Qed.

Lemma scan_frac_afterValue (c : ascii) (r : list ascii) :
  afterValue c -> json.scan_frac (c :: r) = Some (c :: r).
Proof. intros [-> | ->]; reflexivity. Qed.

Lemma scan_int_digits (d : ascii) (ds : list ascii) (c : ascii) (r : list ascii) :
  json.is_digit d = true ->
  Forall (fun x => json.is_digit x = true) ds ->
  (byteval d = 48 -> ds = []) ->
  afterValue c ->
  json.scan_int (d :: ds ++ c :: r) = Some (c :: r).
Proof.
  intros Hd Hds Hz Hc. unfold json.scan_int.
  destruct (Z.eqb_spec (byteval d) 48) as [E | _].
  - rewrite (Hz E). by apply scan_frac_afterValue.
  - rewrite Hd, skip_digits_run; [by apply scan_frac_afterValue | exact Hds |].
    by destruct Hc as [-> | ->].
Qed.

(** A value that starts with a digit is read as a number. *)
Lemma scan_value_digit (fuel : nat) (d : ascii) (s : list ascii) :
  json.is_digit d = true ->
  json.scan_value (S fuel) (d :: s) = json.scan_int (d :: s).
Proof.
  intros H.
  destruct d as [[] [] [] [] [] [] [] []]; try (vm_compute in H; discriminate H);
    reflexivity.
Qed.

Lemma scan_value_minus (fuel : nat) (s : list ascii) :
  json.scan_value (S fuel) ("-"%char :: s) = json.scan_int s.
Proof. reflexivity. Qed.

(** The decimal text of an integer is read back as one number, up to
    the comma or brace that follows it. *)
Lemma scan_value_formatInt (fuel : nat) (z : Z) (c : ascii) (r : list ascii) :
  afterValue c ->
  json.scan_value (S fuel) (list_ascii_of_string (json.formatInt z) ++ c :: r)
    = Some (c :: r).
Proof.
  intros Hc. unfold json.formatInt.
  destruct (digits_spec (Z.abs z) (Z.abs_nonneg z)) as (d & ds & E & Hd & Hds & Hz).
  rewrite list_ascii_app, E.
  destruct (z <? 0); cbn [list_ascii_of_string app].
  - rewrite scan_value_minus. by apply scan_int_digits.
  - rewrite scan_value_digit by exact Hd. by apply scan_int_digits.
Qed.

(** *** Objects of scalars *)

Lemma Scalar_scans (v : json.JSON) :
  Scalar v ->
  exists t,
    json.Marshal v = Some t /\
    forall fuel c r,
      afterValue c ->
      json.scan_value (S fuel) (list_ascii_of_string t ++ c :: r) = Some (c :: r).
Proof.
  intros [| b | z | s].
  - exists "null". split; [reflexivity |]. intros fuel c r _. reflexivity.
  - exists (if b then "true" else "false"). split; [reflexivity |].
    intros fuel c r _. destruct b; reflexivity.
  - exists (json.formatInt z). split; [reflexivity |].
    intros fuel c r Hc. by apply scan_value_formatInt.
  - exists (json.encodeString s). split; [reflexivity |].
    intros fuel c r _. apply scan_value_encodeString.
Qed.

(** The text of one member, as [Marshal] writes it. *)
Lemma member_text (k : string) (t : string) (rest : list ascii) :
  list_ascii_of_string (json.encodeString k +:+ ":" +:+ t) ++ rest
    = dquote :: list_ascii_of_string (json.escape 0 k)
        ++ dquote :: ":"%char :: (list_ascii_of_string t ++ rest).
Proof.
  unfold json.encodeString.
  rewrite !list_ascii_app, list_ascii_q. cbn [list_ascii_of_string app].
  rewrite <- !app_assoc. reflexivity.
Qed.

Lemma scan_members_scalars (fields : list (string * json.JSON)) :
  Forall (fun kv => Scalar (snd kv)) fields ->
  fields <> [] ->
  exists parts rest0,
    json.sequence
      (map (fun kv => (fun t => json.encodeString (fst kv) +:+ ":" +:+ t)
                        <$> json.Marshal (snd kv)) fields) = Some parts /\
    list_ascii_of_string (json.join "," parts) = dquote :: rest0 /\
    forall fuel r,
      (length fields < fuel)%nat ->
      json.scan_members fuel
        (list_ascii_of_string (json.join "," parts) ++ "}"%char :: r) = Some r.
Proof.
  induction fields as [| [k v] fields IH]; intros Hs Hne; [done |].
  apply Forall_cons in Hs as [Hv Hs]. cbn [snd] in Hv.
  destruct (Scalar_scans v Hv) as (t & Ht & Hscan).
  destruct fields as [| kv' fields'].
  - exists [json.encodeString k +:+ ":" +:+ t]. eexists.
    split; [cbn; by rewrite Ht |].
    split.
    { cbn [json.join]. pose proof (member_text k t []) as E.
      rewrite !app_nil_r in E. exact E. }
    intros fuel r Hf. cbn [json.join]. rewrite member_text.
    destruct fuel as [| [| fuel]]; [cbn in Hf; lia.. |].
    rewrite (scan_members_key _ _ _ (escape_literal_body k 0)).
    rewrite (Hscan _ "}"%char r) by (by right).
    reflexivity.
  - destruct (IH Hs ltac:(done)) as (parts' & rest0' & Hseq & Hhead & Hrest).
    destruct parts' as [| p2 ps]; [discriminate Hhead |].
    exists ((json.encodeString k +:+ ":" +:+ t) :: p2 :: ps). eexists.
    split.
    { change (map ?f ((k, v) :: ?l)) with (f (k, v) :: map f l).
      cbn [json.sequence fst snd]. rewrite Ht. cbn [fmap option_fmap option_map].
      by rewrite Hseq. }
    split.
    { change (json.join "," ((json.encodeString k +:+ ":" +:+ t) :: p2 :: ps))
        with ((json.encodeString k +:+ ":" +:+ t) +:+ "," +:+ json.join "," (p2 :: ps)).
      rewrite list_ascii_app.
      pose proof (member_text k t
                    (list_ascii_of_string ("," +:+ json.join "," (p2 :: ps)))) as E.
      exact E. }
    intros fuel r Hf.
    change (json.join "," ((json.encodeString k +:+ ":" +:+ t) :: p2 :: ps))
      with ((json.encodeString k +:+ ":" +:+ t) +:+ "," +:+ json.join "," (p2 :: ps)).
    rewrite list_ascii_app, <- app_assoc, member_text.
    destruct fuel as [| [| fuel]]; [cbn in Hf; lia.. |].
    rewrite (scan_members_key _ _ _ (escape_literal_body k 0)).
    rewrite list_ascii_app. cbn [list_ascii_of_string app].
    rewrite (Hscan _ ","%char _) by (by left).
    transitivity (json.scan_members (S fuel)
                    (list_ascii_of_string (json.join "," (p2 :: ps)) ++ "}"%char :: r));
      [reflexivity |].
    apply Hrest. cbn in Hf |- *. lia.
Qed.

Lemma scan_value_empty_object (fuel : nat) (r : list ascii) :
  json.scan_value (S fuel) ("{"%char :: "}"%char :: r) = Some r.
Proof. reflexivity. Qed.

(** An object whose members are scalars is always marshalled; its text
    starts with a brace and is read back as one value, with fuel for its
    members. *)
Lemma scan_value_scalar_object (fields : list (string * json.JSON)) :
  Forall (fun kv => Scalar (snd kv)) fields ->
  exists rest0,
    json.Marshal (json.JObject fields) = Some (String "{" rest0) /\
    forall fuel r,
      (length fields < fuel)%nat ->
      json.scan_value (S fuel) ("{"%char :: list_ascii_of_string rest0 ++ r) = Some r.
Proof.
  intros Hs. destruct fields as [| kv fields].
  { exists "}". split; [reflexivity |]. intros fuel r _. reflexivity. }
  destruct (scan_members_scalars (kv :: fields) Hs ltac:(done))
    as (parts & rest0 & Hseq & Hhead & Hscan).
  exists (json.join "," parts +:+ "}"). split.
  { cbn [json.Marshal]. by rewrite Hseq. }
  intros fuel r Hf. rewrite list_ascii_app, <- app_assoc.
  cbn [list_ascii_of_string app].
  specialize (Hscan fuel r Hf).
  rewrite Hhead in Hscan |- *. cbn [app] in Hscan |- *.
  by rewrite scan_value_open_object.
Qed.

(** Such an object, with the line feed of [Encode], is a JSON text,
    whatever bytes its strings hold. *)
Lemma Marshal_scalar_object_valid (fields : list (string * json.JSON)) :
  Forall (fun kv => Scalar (snd kv)) fields ->
  exists text,
    json.Marshal (json.JObject fields) = Some text /\
    json.Valid (text +:+ nl).
Proof.
  intros Hs.
  destruct (scan_value_scalar_object fields Hs) as (rest0 & Ht & Hscan).
  exists (String "{" rest0). split; [exact Ht |].
  exists (S (S (length fields))). unfold json.accepts.
  rewrite list_ascii_app. cbn [list_ascii_of_string app nl str1].
  by rewrite (Hscan (S (length fields)) [newline]) by lia.
Qed.

Lemma omitempty_scalar (name value : string) :
  Forall (fun kv => Scalar (snd kv)) (UserInfo.omitempty name value).
Proof. destruct value; repeat constructor. Qed.

Lemma UserInfo_valid (u : UserInfo.t) (text : string) :
  json.Marshal (UserInfo.toJSON u) = Some text -> json.Valid (text +:+ nl).
Proof.
  intros Ht. unfold UserInfo.toJSON in Ht.
  match type of Ht with json.Marshal (json.JObject ?fs) = _ =>
    destruct (Marshal_scalar_object_valid fs) as (text' & Ht' & Hv)
  end.
  - constructor; [constructor |].
    repeat (apply Forall_app; split); apply omitempty_scalar.
  - rewrite Ht in Ht'. by injection Ht' as ->.
Qed.

(** X14. Whatever the request headers and the local client's answer
    hold (quotes, backslashes, control characters, bytes that are not
    UTF-8), the body of /api/user is a JSON text: the handler goes
    through [Encode], which escapes. *)
Theorem userHandler_body_is_json (s : Server) (r : http.Request) :
  json.Valid (http.Body (fst (serve (userHandler s r)))).
Proof.
  destruct (userHandler_response s r) as (info & text & Ht & -> & _).
  cbn [http.Body]. by apply (UserInfo_valid info).
Qed.

Lemma healthHandler_response (s : Server) (r : http.Request) :
  exists (h : HealthResponse.t) (text : string),
    json.Marshal (HealthResponse.toJSON h) = Some text /\
    fst (serve (healthHandler s r)) = http.mkResponse 200 jsonHeader (text +:+ nl).
Proof.
  unfold serve, healthHandler. run_handler.
  destruct (sql.PingContext (db s)) as [e |];
    destruct (tailscale.Status (client s)) as [[st |] [e' |]];
    try destruct (String.eqb (ipnstate.BackendState st) "Running");
    eexists _, _; (split; [reflexivity | reflexivity]).
Qed.

(** X15. Whatever backend state the local client reports, the body of
    /health is a JSON text. *)
Theorem healthHandler_body_is_json (s : Server) (r : http.Request) :
  json.Valid (http.Body (fst (serve (healthHandler s r)))).
Proof.
  destruct (healthHandler_response s r) as (h & text & Ht & ->).
  cbn [http.Body]. unfold HealthResponse.toJSON in Ht.
  match type of Ht with json.Marshal (json.JObject ?fs) = _ =>
    destruct (Marshal_scalar_object_valid fs) as (text' & Ht' & Hv)
  end.
  - repeat constructor.
  - rewrite Ht in Ht'. by injection Ht' as ->.
Qed.

(** *** Arrays of objects *)

Lemma scan_value_open_array (fuel : nat) (r : list ascii) :
  json.scan_value (S fuel) ("["%char :: "{"%char :: r)
    = json.scan_elems fuel ("{"%char :: r).
Proof. reflexivity. Qed.

Lemma scan_elems_close (fuel : nat) (s r : list ascii) :
  json.scan_value fuel s = Some ("]"%char :: r) ->
  json.scan_elems (S fuel) s = Some r.
Proof.
  intros H.
  transitivity
    (match json.scan_value fuel s with
     | None => None
     | Some r0 =>
       match json.skipws r0 with
       | c :: r' =>
         if byteval c =? 44 then json.scan_elems fuel r'
         else if byteval c =? 93 then Some r'
         else None
       | [] => None
       end
     end); [reflexivity |].
  by rewrite H.
Qed.

Lemma scan_elems_comma (fuel : nat) (s r : list ascii) :
  json.scan_value fuel s = Some (","%char :: r) ->
  json.scan_elems (S fuel) s = json.scan_elems fuel r.
Proof.
  intros H.
  transitivity
    (match json.scan_value fuel s with
     | None => None
     | Some r0 =>
       match json.skipws r0 with
       | c :: r' =>
         if byteval c =? 44 then json.scan_elems fuel r'
         else if byteval c =? 93 then Some r'
         else None
       | [] => None
       end
     end); [reflexivity |].
  by rewrite H.
Qed.

(** The elements of an array of scalar objects are read back one after
    the other; the fuel covers the elements and the members of the
    largest one. *)
Lemma scan_elems_objects (n : nat) (objs : list (list (string * json.JSON))) :
  Forall (Forall (fun kv => Scalar (snd kv))) objs ->
  Forall (fun fs => (length fs <= n)%nat) objs ->
  objs <> [] ->
  exists parts rest0,
    json.sequence (map (fun fs => json.Marshal (json.JObject fs)) objs) = Some parts /\
    list_ascii_of_string (json.join "," parts) = "{"%char :: rest0 /\
    forall fuel r,
      (length objs + n + 1 < fuel)%nat ->
      json.scan_elems fuel
        (list_ascii_of_string (json.join "," parts) ++ "]"%char :: r) = Some r.
Proof.
  induction objs as [| o objs IH]; intros Hs Hn Hne; [done |].
  apply Forall_cons in Hs as [Ho Hs]. apply Forall_cons in Hn as [Hlen Hn].
  destruct (scan_value_scalar_object o Ho) as (t & Ht & Hscan).
  destruct objs as [| o2 objs'].
  - exists [String "{" t], (list_ascii_of_string t).
    split; [cbn [map json.sequence]; by rewrite Ht |].
    split; [reflexivity |].
    intros fuel r Hf. cbn [json.join list_ascii_of_string app].
    destruct fuel as [| [| fuel]]; [cbn in Hf; lia.. |].
    apply scan_elems_close, Hscan. cbn in Hf. lia.
  - destruct (IH Hs Hn ltac:(done)) as (parts' & rest0' & Hseq & Hhead & Hrest).
    destruct parts' as [| p2 ps]; [discriminate Hhead |].
    exists (String "{" t :: p2 :: ps),
      (list_ascii_of_string (t +:+ "," +:+ json.join "," (p2 :: ps))).
    split.
    { change (map ?f (o :: ?l)) with (f o :: map f l).
      cbn [json.sequence]. rewrite Ht. cbn [fmap option_fmap option_map].
      by rewrite Hseq. }
    split; [reflexivity |].
    intros fuel r Hf.
    change (json.join "," (String "{" t :: p2 :: ps))
      with (String "{" (t +:+ "," +:+ json.join "," (p2 :: ps))).
    cbn [list_ascii_of_string app].
    rewrite !list_ascii_app, <- !app_assoc. cbn [list_ascii_of_string app].
    destruct fuel as [| [| fuel]]; [cbn in Hf; lia.. |].
    rewrite (scan_elems_comma _ _
               (list_ascii_of_string (json.join "," (p2 :: ps)) ++ "]"%char :: r)).
    + apply Hrest. cbn in Hf |- *. lia.
    + apply Hscan. cbn in Hf. lia.
Qed.

(** An array of scalar objects, with the line feed of [Encode], is a
    JSON text. *)
Lemma Marshal_object_array_valid (objs : list (list (string * json.JSON))) :
  Forall (Forall (fun kv => Scalar (snd kv))) objs ->
  exists text,
    json.Marshal (json.JArray (map json.JObject objs)) = Some text /\
    json.Valid (text +:+ nl).
Proof.
  intros Hs. destruct objs as [| o objs].
  { exists "[]". split; [reflexivity |]. by exists 1%nat. }
  set (n := max_list (length <$> (o :: objs))).
  assert (Hn : Forall (fun fs => (length fs <= n)%nat) (o :: objs)).
  { apply Forall_forall. intros fs Hin. apply max_list_elem_of_le.
    by apply (list_elem_of_fmap_2 length). }
  destruct (scan_elems_objects n (o :: objs) Hs Hn ltac:(done))
    as (parts & rest0 & Hseq & Hhead & Hscan).
  exists ("[" +:+ json.join "," parts +:+ "]"). split.
  { cbn [json.Marshal]. rewrite map_map. by rewrite Hseq. }
  exists (S (length (o :: objs) + n + 2)). unfold json.accepts.
  rewrite !list_ascii_app. cbn [list_ascii_of_string app nl str1].
  rewrite <- app_assoc. cbn [app].
  specialize (Hscan (length (o :: objs) + n + 2)%nat [newline] ltac:(lia)).
  rewrite Hhead in Hscan |- *. cbn [app] in Hscan |- *.
  by rewrite scan_value_open_array, Hscan.
Qed.

(** *** The rows of /api/products *)

Lemma notFloat_nth (values : list driver.Value) (j : nat) :
  Forall notFloat values -> notFloat (nth j values driver.VNil).
Proof.
  intros H. destruct (nth_in_or_default j values driver.VNil) as [Hin | ->]; [| done].
  rewrite Forall_forall in H. apply H. by apply list_elem_of_In.
Qed.

Lemma jsonOfValue_coerce_scalar (enc : Encoders) (v : driver.Value) :
  notFloat v -> Scalar (jsonOfValue enc (coerce v)).
Proof. destruct v; [constructor | constructor | done | constructor ..]. Qed.

Lemma jsonOfProduct_scalars (enc : Encoders) (columns : list string)
    (values : list driver.Value) :
  Forall notFloat values ->
  Forall (fun kv => Scalar (snd kv))
    (map (fun kv => (fst kv, jsonOfValue enc (snd kv)))
       (sortedEntries (marshalRow columns values))).
Proof.
  intros Hv. apply Forall_forall. intros [k j] Hin.
  apply list_elem_of_In, in_map_iff in Hin as ([k' v] & E & Hin).
  cbn [fst snd] in E. injection E as <- <-. cbn [snd].
  apply list_elem_of_In, elem_of_sortedEntries in Hin.
  apply fillProduct_values in Hin as [Hin | (i & ->)].
  - by rewrite lookup_empty in Hin.
  - by apply jsonOfValue_coerce_scalar, notFloat_nth.
Qed.

(** X16. A table without float columns, as the products table is,
    always gives a JSON text: when the query, the column list, every
    scan and the iteration succeed and no scanned value is a float64,
    the answer is 200 and its body is well-formed JSON, whatever the
    number of rows and columns and whatever bytes the column names and
    the text values hold. *)
Theorem productsHandler_body_is_json (enc : Encoders) (s : Server)
    (r : http.Request) (rows : sql.Rows) (columns : list string)
    (scanned : list (list driver.Value)) :
  sql.QueryContext (db s) query = inr rows ->
  sql.Columns rows = inr columns ->
  sql.items rows = inr <$> scanned ->
  sql.Err rows = None ->
  Forall (Forall notFloat) scanned ->
  http.StatusCode (fst (serve (productsHandler enc s r))) = 200 /\
  json.Valid (http.Body (fst (serve (productsHandler enc s r)))).
Proof.
  intros Hq Hc Hi He Hv.
  rewrite (productsHandler_success enc s r rows columns scanned Hq Hc Hi He).
  cbn [fst]. unfold encodedResponse, allRows.
  destruct scanned as [| values scanned].
  { split; [reflexivity |]. by exists 1%nat. }
  destruct (Marshal_object_array_valid
              (map (fun values =>
                      map (fun kv => (fst kv, jsonOfValue enc (snd kv)))
                        (sortedEntries (marshalRow columns values)))
                 (values :: scanned))) as (text & Ht & Hvalid).
  { apply Forall_forall. intros fs Hin.
    apply list_elem_of_In, in_map_iff in Hin as (vals & <- & Hin).
    apply jsonOfProduct_scalars.
    rewrite Forall_forall in Hv. by apply Hv, list_elem_of_In. }
  rewrite map_map in Ht.
  cbn [jsonOfProducts].
  change (marshalRow columns <$> values :: scanned)
    with (map (marshalRow columns) (values :: scanned)).
  rewrite map_map. unfold jsonOfProduct.
  rewrite Ht. by split.
Qed.

Lemma productsHandler_body_is_json_witness :
  http.StatusCode (fst (serve (productsHandler sampleEncoders srvSeeded reqBare))) = 200 /\
  json.Valid (http.Body (fst (serve (productsHandler sampleEncoders srvSeeded reqBare)))).
Proof.
  eapply (productsHandler_body_is_json sampleEncoders srvSeeded reqBare);
    [reflexivity | reflexivity | | reflexivity |].
  - instantiate (1 := [_; _]). reflexivity.
  - repeat constructor.
Defined.

